(** * COVID-19 dashboard (app.py): the aggregation pipeline, verified

    The script is sequential glue over pandas: boolean-mask filters,
    group-by sums, first differences, a sort and a [head].  This file embeds
    the pandas operations the script calls, with the semantics pandas
    documents for them, then the script itself as a program over a namespace
    and a heap of frame objects, and proves the properties of the
    aggregation engine on that embedding.

    Conventions of the embedding.
    - A date ([datetime64]) is a [Z]; only its order and equality are used.
    - The metric columns are int64 columns.  A counter is a [Z], an int64
      value when it lies in [[-2^63, 2^63)]; arithmetic on the column wraps
      at 64 bits, as numpy's does.
    - A float64 column (the output of [diff], a column written by index
      alignment) is a [list (option Z)]: NaN is [None], and a number is the
      integer it equals.  Every float the script computes is the cast of an
      int64 or a sum or difference of such floats, hence a whole number; a
      cast and each float operation round to 53 significant bits, ties to
      even.  The sign of a zero is not kept.
    - A frame carries its index labels: [sort_values] permutes them with the
      rows and a column assignment aligns on them. *)

From Stdlib Require Import ZArith String.
From Stdlib Require OrderedTypeEx.
From stdpp Require Import base tactics option list sorting gmap strings.

#[local] Open Scope string_scope.
#[local] Open Scope Z_scope.
#[local] Open Scope list_scope.

(** ** Data model *)

(** The three counters a selectbox can return. *)
Inductive Metric : Type := cases | deaths | recovered.

#[export] Instance Metric_eq_dec : EqDecision Metric.
Proof. solve_decision. Defined.

Definition metric_name (m : Metric) : string :=
  match m with
  | cases => "cases"
  | deaths => "deaths"
  | recovered => "recovered"
  end.

(** One row of [global_df] after the column selection of line 12. *)
Record Obs : Type := mkObs {
  date : Z;
  Country_Region : string;
  Province_State : string;
  Combined_Key : string;
  obs_cases : Z;
  obs_deaths : Z;
  obs_recovered : Z
}.

(** [df[m]] read on one row. *)
Definition metric_of (m : Metric) (o : Obs) : Z :=
  match m with
  | cases => obs_cases o
  | deaths => obs_deaths o
  | recovered => obs_recovered o
  end.

(** A float Series: index labels and values, NaN as [None]. *)
Record Series : Type := mkSeries {
  s_index : list nat;
  s_values : list (option Z)
}.

(** A frame: index labels, the rows of the typed base columns, and the
    columns added by assignment, in column order. *)
Record Frame (R : Type) : Type := mkFrame {
  index : list nat;
  records : list R;
  derived : list (string * list (option Z))
}.
Arguments mkFrame {R} _ _ _.
Arguments index {R} _.
Arguments records {R} _.
Arguments derived {R} _.

Abbreviation DataFrame := (Frame Obs).

(** A frame whose index has one label per row and no label twice. *)
Definition unique_index {R} (df : Frame R) : Prop :=
  NoDup (index df) ∧ length (index df) = length (records df).

(** A table as a frame: the rows under the default RangeIndex, no extra
    column. *)
Definition from_records {R} (rows : list R) : Frame R :=
  mkFrame (seq 0 (length rows)) rows [].

(** What pandas raises. *)
Inductive Exn : Type :=
| NameError (name : string)
| KeyError (key : string)
| ValueError (msg : string)
| TypeError (msg : string).

Inductive Result (A : Type) : Type :=
| Ok (a : A)
| Raise (e : Exn).
Arguments Ok {A} _.
Arguments Raise {A} _.

(** ** Numbers, as numpy holds them *)

(** The int64 a 64-bit two's complement operation leaves for the exact
    result [z]. *)
Definition wrap64 (z : Z) : Z := (z + 2 ^ 63) mod 2 ^ 64 - 2 ^ 63.

Definition int64_add (a b : Z) : Z := wrap64 (a + b).
Definition int64_sub (a b : Z) : Z := wrap64 (a - b).

(** [sum] of an int64 column: the running total from 0, in row order. *)
Definition int64_sum (l : list Z) : Z := foldl int64_add 0 l.

(** [t] is the int64 that stands for the exact result [s]: in range, and
    congruent to [s] modulo 2^64. *)
Definition int64_of (s t : Z) : Prop :=
  - 2 ^ 63 ≤ t < 2 ^ 63 ∧ (t - s) mod 2 ^ 64 = 0.

(** The float64 nearest to the integer [z], ties to the even significand:
    [z] itself up to 2^53 in size, a multiple of the last place's unit
    beyond.  No integer the script meets is large enough to overflow. *)
Definition float64_of_int (z : Z) : Z :=
  if Z.abs z <=? 2 ^ 53 then z
  else
    let ulp := 2 ^ (Z.log2 (Z.abs z) - 52) in
    let q := z / ulp in
    let r := z mod ulp in
    if 2 * r <? ulp then q * ulp
    else if ulp <? 2 * r then (q + 1) * ulp
    else if Z.even q then q * ulp
    else (q + 1) * ulp.

(** Float addition and subtraction on whole-number floats: the exact result,
    rounded. *)
Definition float64_add (a b : Z) : Z := float64_of_int (a + b).
Definition float64_sub (a b : Z) : Z := float64_of_int (a - b).

(** One step of the compensated summation pandas' [group_sum] runs on a
    float column: the running total and its compensation term. *)
Definition kahan_step (acc : Z * Z) (val : Z) : Z * Z :=
  let y := float64_sub val acc.2 in
  let t := float64_add acc.1 y in
  (t, float64_sub (float64_sub t acc.1) y).

(** [sum] of a float64 column without NaN. *)
Definition float64_sum (l : list Z) : Z := (foldl kahan_step (0, 0) l).1.

(** ** Orders on group and sort keys *)

(** The comparison pandas uses on a key column. *)
Class KeyOrder (K : Type) : Type := key_cmp : K → K → comparison.

#[export] Instance Z_KeyOrder : KeyOrder Z := Z.compare.
#[export] Instance string_KeyOrder : KeyOrder string := String.compare.
#[export] Instance prod_KeyOrder {A B} `{KeyOrder A, KeyOrder B} : KeyOrder (A * B) :=
  λ p q, match key_cmp p.1 q.1 with
         | Eq => key_cmp p.2 q.2
         | c => c
         end.

Definition key_leb {K} `{KeyOrder K} (x y : K) : bool :=
  match key_cmp x y with Gt => false | _ => true end.
Definition key_eqb {K} `{KeyOrder K} (x y : K) : bool :=
  match key_cmp x y with Eq => true | _ => false end.
Definition key_lt {K} `{KeyOrder K} (x y : K) : Prop := key_cmp x y = Lt.
Definition key_le {K} `{KeyOrder K} (x y : K) : Prop := key_cmp x y ≠ Gt.

(** The laws of a total order, in terms of the comparison. *)
Class KeyOrderLaws (K : Type) `{KeyOrder K} : Prop := {
  key_cmp_eq (x y : K) : key_cmp x y = Eq ↔ x = y;
  key_cmp_antisym (x y : K) : key_cmp y x = CompOpp (key_cmp x y);
  key_lt_trans (x y z : K) : key_cmp x y = Lt → key_cmp y z = Lt → key_cmp x z = Lt
}.

(** ** Row selection *)

(** [l[mask]]: the entries whose mask bit is set. *)
Fixpoint mask_select {A} (mask : list bool) (l : list A) : list A :=
  match mask, l with
  | b :: mask', x :: l' => if b then x :: mask_select mask' l' else mask_select mask' l'
  | _, _ => []
  end.

(** [df[mask]] with a boolean Series computed row by row from the base columns. *)
Definition getitem_mask {R} (p : R → bool) (df : Frame R) : Frame R :=
  let mask := map p (records df) in
  mkFrame (mask_select mask (index df))
          (mask_select mask (records df))
          (map (λ c, (c.1, mask_select mask c.2)) (derived df)).

(** [l.take(indexer)]: positions out of range do not occur for the indexers
    a sort returns; they are dropped here. *)
Definition take_pos {A} (indexer : list nat) (l : list A) : list A :=
  omap (λ i, l !! i) indexer.

Definition take_rows {R} (indexer : list nat) (df : Frame R) : Frame R :=
  mkFrame (take_pos indexer (index df))
          (take_pos indexer (records df))
          (map (λ c, (c.1, take_pos indexer c.2)) (derived df)).

(** [head(n)] on a list of rows. *)
Definition head_n {A} (n : nat) (l : list A) : list A := firstn n l.

(** [Series.isin(values)] on one entry. *)
Definition isin (values : list string) (s : string) : bool :=
  bool_decide (s ∈ values).

(** [Series.unique()]: distinct values in order of first appearance. *)
Fixpoint unique (l : list string) : list string :=
  match l with
  | [] => []
  | x :: l' => x :: filter (λ y, y ≠ x) (unique l')
  end.

(** [Series.max()] of a date column; NaT ([None]) on an empty column. *)
Definition max_date (ds : list Z) : option Z :=
  match ds with
  | [] => None
  | d :: ds' => Some (foldr Z.max d ds')
  end.

(** ** Sorting *)

(** Stable insertion of a (position, key) pair: before the first entry whose
    key is not smaller. *)
Fixpoint insert_by_key {K} `{KeyOrder K} (x : nat * K) (l : list (nat * K)) : list (nat * K) :=
  match l with
  | [] => [x]
  | y :: l' => if key_leb x.2 y.2 then x :: l else y :: insert_by_key x l'
  end.

Definition stable_sort_by_key {K} `{KeyOrder K} (l : list (nat * K)) : list (nat * K) :=
  foldr insert_by_key [] l.

(** [lexsort_indexer]: the indexer of a multi-key [sort_values]; it is stable. *)
Definition lexsort_indexer {K} `{KeyOrder K} (keys : list K) : list nat :=
  map fst (stable_sort_by_key (zip (seq 0 (length keys)) keys)).

(** numpy's [argsort(kind="quicksort")]: which of the sorted orders it
    returns on ties is not specified, so the algorithm is an interface. *)
Class Quicksort : Type := argsort : list Z → list nat.

Class QuicksortSpec `{Quicksort} : Prop := {
  argsort_perm (vs : list Z) : argsort vs ≡ₚ seq 0 (length vs);
  argsort_sorted (vs : list Z) : Sorted Z.le (take_pos (argsort vs) vs)
}.

(** pandas' [nargsort] with the default [kind]: for a descending sort the
    column is reversed, sorted ascending, and the indexer reversed. *)
Definition nargsort `{Quicksort} (ascending : bool) (vs : list Z) : list nat :=
  let idx := seq 0 (length vs) in
  if ascending then take_pos (argsort vs) idx
  else reverse (take_pos (argsort (reverse vs)) (reverse idx)).

(** ** Group-by *)

(** Insertion of a group key in the sorted, duplicate-free key list. *)
Fixpoint insert_key {K} `{KeyOrder K} (k : K) (ks : list K) : list K :=
  match ks with
  | [] => [k]
  | k' :: ks' =>
      match key_cmp k k' with
      | Lt => k :: ks
      | Eq => ks
      | Gt => k' :: insert_key k ks'
      end
  end.

(** The group keys of [groupby(key)] ([sort=True]): distinct, ascending. *)
Definition group_keys {K} `{KeyOrder K} (keys : list K) : list K :=
  foldr insert_key [] keys.

(** The rows of one group, in frame order. *)
Definition group_rows {K V} `{KeyOrder K} (k : K) (kv : list (K * V)) : list V :=
  map snd (filter (λ p, key_eqb p.1 k = true) kv).

(** [groupby(key)[col].sum().reset_index()]: one row per group key. *)
Definition groupby_sum {K} `{KeyOrder K} (kv : list (K * Z)) : list (K * Z) :=
  map (λ k, (k, int64_sum (group_rows k kv))) (group_keys (map fst kv)).

(** The same on a float64 column; [sum] skips NaN. *)
Definition groupby_sum_float {K} `{KeyOrder K} (kv : list (K * option Z)) : list (K * Z) :=
  map (λ k, (k, float64_sum (omap id (group_rows k kv)))) (group_keys (map fst kv)).

(** [groupby(key)[[c1, c2, c3]].sum().reset_index()]. *)
Definition groupby_sum3 {K} `{KeyOrder K} (kv : list (K * (Z * Z * Z))) : list (K * (Z * Z * Z)) :=
  map (λ k, let g := group_rows k kv in
            (k, (int64_sum (map (λ t, t.1.1) g),
                 int64_sum (map (λ t, t.1.2) g),
                 int64_sum (map snd g))))
      (group_keys (map fst kv)).

(** ** First differences *)

(** NaN in front, then each value minus the one before, under the
    subtraction [sub]. *)
Definition diff_by (sub : Z → Z → Z) (vs : list Z) : list (option Z) :=
  match vs with
  | [] => []
  | _ :: rest => None :: zip_with (λ prev cur, Some (sub cur prev)) vs rest
  end.

(** [Series.diff()] on an int64 column: the result is a float64 column; each
    difference is taken in int64 and stored as a float. *)
Definition diff (vs : list Z) : list (option Z) :=
  diff_by (λ cur prev, float64_of_int (int64_sub cur prev)) vs.

(** What [groupby(key)[col].diff()] computes for two rows of one group:
    [obj - shifted], the shifted column being float64 to hold the NaN, so
    both values are cast and the subtraction is the float one. *)
Definition groupby_sub (cur prev : Z) : Z :=
  float64_sub (float64_of_int cur) (float64_of_int prev).

(** [fillna(z)]. *)
Definition fillna (z : Z) (l : list (option Z)) : list (option Z) :=
  map (λ o, Some (default z o)) l.

(** [groupby(key)[col].diff()]: each row minus the previous row of its own
    group, NaN on the first row of a group; the result keeps the row order.
    [last] holds, per group, the value of the latest row seen. *)
Fixpoint groupby_diff_from (last : gmap string Z) (kv : list (string * Z)) : list (option Z) :=
  match kv with
  | [] => []
  | (k, v) :: kv' => (groupby_sub v <$> last !! k) :: groupby_diff_from (<[k := v]> last) kv'
  end.

Definition groupby_diff (kv : list (string * Z)) : list (option Z) :=
  groupby_diff_from ∅ kv.

(** ** Column assignment *)

(** The columns after [df[name] = col]: overwritten in place when [name] is
    already a column, appended as the last column otherwise. *)
Fixpoint set_column (name : string) (col : list (option Z))
    (cols : list (string * list (option Z))) : list (string * list (option Z)) :=
  match cols with
  | [] => [(name, col)]
  | c :: cols' =>
      if decide (c.1 = name) then (name, col) :: cols'
      else c :: set_column name col cols'
  end.

(** [value.reindex(target)] for a Series with unique labels: the value at each
    target label, NaN for a label the Series does not have. *)
Definition reindex (value : Series) (target : list nat) : list (option Z) :=
  let by_label : gmap nat (option Z) := list_to_map (zip (s_index value) (s_values value)) in
  map (λ l, mjoin (by_label !! l)) target.

(** pandas' [_reindex_for_setitem]: the values as they are when the two
    indexes are equal, aligned on the labels otherwise, which raises when the
    Series has a label twice. *)
Definition reindex_for_setitem (value : Series) (target : list nat) : Result (list (option Z)) :=
  if decide (s_index value = target) then Ok (s_values value)
  else if decide (NoDup (s_index value)) then Ok (reindex value target)
  else Raise (ValueError "cannot reindex on an axis with duplicate labels").

(** [df[name] = value] for a Series [value]. *)
Definition setitem {R} (name : string) (value : Series) (df : Frame R) : Result (Frame R) :=
  match reindex_for_setitem value (index df) with
  | Ok col => Ok (mkFrame (index df) (records df) (set_column name col (derived df)))
  | Raise e => Raise e
  end.

(** [df[name]] for an assigned column. *)
Definition getitem_derived {R} (name : string) (df : Frame R) : Result (list (option Z)) :=
  match list_find (λ c, c.1 = name) (derived df) with
  | Some (_, c) => Ok c.2
  | None => Raise (KeyError name)
  end.

(** ** The aggregation engine, as the script composes it *)

(** Lines 41-42: [df[(df["date"] >= start) & (df["date"] <= end)]]. *)
Definition filterByDateRange (start_date end_date : Z) (df : DataFrame) : DataFrame :=
  getitem_mask (λ o, (date o >=? start_date) && (date o <=? end_date)) df.

(** Line 45: [df.groupby("date")[metric].sum().reset_index()]. *)
Definition sumByDate (m : Metric) (df : DataFrame) : list (Z * Z) :=
  groupby_sum (map (λ o, (date o, metric_of m o)) (records df)).

(** Line 152: the same on an assigned float column. *)
Definition sumByDate_derived (name : string) (df : DataFrame) : Result (list (Z * Z)) :=
  match getitem_derived name df with
  | Ok col => Ok (groupby_sum_float (zip (map date (records df)) col))
  | Raise e => Raise e
  end.

(** Line 79: [df.groupby("Country/Region")[["cases", "deaths", "recovered"]].sum()]. *)
Definition sumByEntity (df : DataFrame) : list (string * (Z * Z * Z)) :=
  groupby_sum3 (map (λ o, (Country_Region o, (obs_cases o, obs_deaths o, obs_recovered o)))
                    (records df)).

(** Lines 117, 189: [df[df["date"] == latest_date]]; nothing equals NaT. *)
Definition rows_at (latest_date : option Z) (df : DataFrame) : DataFrame :=
  getitem_mask (λ o, bool_decide (Some (date o) = latest_date)) df.

(** Line 120: [latest_df.groupby("Country/Region")[metric].sum().reset_index()]. *)
Definition sum_per_country (m : Metric) (df : DataFrame) : list (string * Z) :=
  groupby_sum (map (λ o, (Country_Region o, metric_of m o)) (records df)).

(** [sort_values(by=metric, ascending=False)] on the two-column frame. *)
Definition sort_values_desc `{Quicksort} (rows : list (string * Z)) : list (string * Z) :=
  take_pos (nargsort false (map snd rows)) rows.

(** Lines 120-121 on the rows of one date. *)
Definition rank_countries `{Quicksort} (m : Metric) (n : nat) (latest_df : DataFrame)
    : list (string * Z) :=
  head_n n (sort_values_desc (sum_per_country m latest_df)).

(** Lines 117-121. *)
Definition topN `{Quicksort} (D : Z) (m : Metric) (n : nat) (df : DataFrame)
    : list (string * Z) :=
  rank_countries m n (rows_at (Some D) df).

(** [topN] as the specification words it, for comparison with [topN]: the
    rows of the date, the sum per entity with the entities in first-seen
    order, a stable descending sort, the first [n] entries. *)
Definition topN_as_specified (D : Z) (m : Metric) (n : nat) (df : DataFrame)
    : list (string * Z) :=
  let at_D := filter (λ o, date o = D) (records df) in
  let totals :=
    map (λ e, (e, foldr Z.add 0 (map (metric_of m)
                                  (filter (λ o, Country_Region o = e) at_D))))
        (unique (map Country_Region at_D)) in
  firstn n (take_pos (lexsort_indexer (map (λ p, - p.2) totals)) totals).

(** Line 148: [df.sort_values(by=["Country/Region", "date"])]. *)
Definition sort_values_country_date (df : DataFrame) : DataFrame :=
  take_rows (lexsort_indexer (map (λ o, (Country_Region o, date o)) (records df))) df.

(** The Series on the right of line 149:
    [df_sorted.groupby("Country/Region")[metric].diff().fillna(0)]. *)
Definition daily_series (m : Metric) (df_sorted : DataFrame) : Series :=
  mkSeries (index df_sorted)
           (fillna 0 (groupby_diff (map (λ o, (Country_Region o, metric_of m o))
                                        (records df_sorted)))).

(** Lines 148-149. *)
Definition dailyDelta (m : Metric) (df : DataFrame) : Result DataFrame :=
  let global_df_sorted := sort_values_country_date df in
  setitem ("daily_" +:+ metric_name m) (daily_series m global_df_sorted) df.

(** Line 234: [s.diff().fillna(0)]; the fill leaves no NaN, so the result is
    read as a list of numbers. *)
Definition diffSeries (vs : list Z) : list Z :=
  map (default 0) (diff vs).


(** ** The script as a program

    A run of the script is a computation over the module's namespace, a heap
    of pandas objects, the process environment and what streamlit has been
    asked to show.  Names hold references: an assignment binds a name, a
    pandas operation that returns a frame allocates a new object, and a
    column assignment writes the object the name refers to. *)

Definition loc : Type := nat.

(** The objects the script builds. *)
Inductive Object : Type :=
| ODataFrame (df : DataFrame)
| OTotals (t : list (Z * Z))
| OSummary (t : list (string * (Z * Z * Z)))
| ORanking (t : list (string * Z))
| OSlice (m : Metric) (f : Frame (Z * Z))
| OMelted (t : list (Z * string * option Z)).

Record Figure : Type := mkFigure {
  chart : string;
  data : Object
}.

Inductive Value : Type :=
| VModule (name : string)
| VRef (l : loc)
| VDate (d : Z)
| VTimestamp (t : option Z)
| VMetric (m : Metric)
| VStr (s : string)
| VStrs (l : list string)
| VInt (n : nat)
| VFigure (fig : Figure).

Record State : Type := mkState {
  namespace : gmap string Value;
  heap : gmap loc Object;
  environ : gmap string string;
  sidebar_errors : list string;
  rendered : list Figure
}.

(** What the outside supplies to one run: the provider's table and the value
    each widget returns. *)
Record Inputs : Type := mkInputs {
  provider : DataFrame;
  in_start_date : Z;
  in_end_date : Z;
  in_case_type : Metric;
  in_country1 : string;
  in_country2 : string;
  in_n : nat;
  in_metric : Metric;
  in_daily_metric : Metric;
  in_daily_metric_top : Metric;
  in_top_n : nat;
  in_selected_country : string;
  in_selected_metric : Metric
}.

(** A statement: it ends normally or raises, and leaves a state either way. *)
Definition Script (A : Type) : Type := State → Result A * State.

#[export] Instance Script_ret : MRet Script := λ A a σ, (Ok a, σ).
#[export] Instance Script_bind : MBind Script := λ A B f c σ,
  match c σ with
  | (Ok a, σ') => f a σ'
  | (Raise e, σ') => (Raise e, σ')
  end.

Definition raise {A} (e : Exn) : Script A := λ σ, (Raise e, σ).

Definition modify (f : State → State) : Script unit := λ σ, (Ok (), f σ).

Definition lift_result {A} (r : Result A) : Script A :=
  match r with
  | Ok a => mret a
  | Raise e => raise e
  end.

(** Reading a global name. *)
Definition lookup_name (x : string) : Script Value := λ σ,
  match namespace σ !! x with
  | Some v => (Ok v, σ)
  | None => (Raise (NameError x), σ)
  end.

(** [x = v]. *)
Definition bind_name (x : string) (v : Value) : Script unit :=
  modify (λ σ, mkState (<[x := v]> (namespace σ)) (heap σ) (environ σ)
                       (sidebar_errors σ) (rendered σ)).

(** [import m as x]. *)
Definition import_as (m x : string) : Script unit := bind_name x (VModule m).

(** A pandas operation returning a new object. *)
Definition alloc (o : Object) : Script Value := λ σ,
  let l := fresh (dom (heap σ)) in
  (Ok (VRef l), mkState (namespace σ) (<[l := o]> (heap σ)) (environ σ)
                        (sidebar_errors σ) (rendered σ)).

(** Writing the object behind a reference. *)
Definition store (l : loc) (o : Object) : Script unit :=
  modify (λ σ, mkState (namespace σ) (<[l := o]> (heap σ)) (environ σ)
                       (sidebar_errors σ) (rendered σ)).

Definition deref (v : Value) : Script (loc * Object) := λ σ,
  match v with
  | VRef l =>
      match heap σ !! l with
      | Some o => (Ok (l, o), σ)
      | None => (Raise (TypeError "dangling reference"), σ)
      end
  | _ => (Raise (TypeError "not a pandas object"), σ)
  end.

Definition get_frame (x : string) : Script (loc * DataFrame) :=
  v ← lookup_name x;
  lo ← deref v;
  match lo.2 with
  | ODataFrame df => mret (lo.1, df)
  | _ => raise (TypeError "not a DataFrame")
  end.

Definition get_ranking (x : string) : Script (list (string * Z)) :=
  v ← lookup_name x;
  lo ← deref v;
  match lo.2 with
  | ORanking t => mret t
  | _ => raise (TypeError "not a DataFrame")
  end.

Definition get_slice (x : string) : Script (loc * (Metric * Frame (Z * Z))) :=
  v ← lookup_name x;
  lo ← deref v;
  match lo.2 with
  | OSlice m f => mret (lo.1, (m, f))
  | _ => raise (TypeError "not a DataFrame")
  end.

Definition get_object (x : string) : Script Object :=
  v ← lookup_name x;
  lo ← deref v;
  mret lo.2.

Definition get_date (x : string) : Script Z :=
  v ← lookup_name x;
  match v with
  | VDate d => mret d
  | _ => raise (TypeError "not a date")
  end.

Definition get_timestamp (x : string) : Script (option Z) :=
  v ← lookup_name x;
  match v with
  | VTimestamp t => mret t
  | _ => raise (TypeError "not a Timestamp")
  end.

Definition get_metric (x : string) : Script Metric :=
  v ← lookup_name x;
  match v with
  | VMetric m => mret m
  | _ => raise (TypeError "not a str")
  end.

Definition get_str (x : string) : Script string :=
  v ← lookup_name x;
  match v with
  | VStr s => mret s
  | _ => raise (TypeError "not a str")
  end.

Definition get_strs (x : string) : Script (list string) :=
  v ← lookup_name x;
  match v with
  | VStrs l => mret l
  | _ => raise (TypeError "not a list")
  end.

Definition get_int (x : string) : Script nat :=
  v ← lookup_name x;
  match v with
  | VInt n => mret n
  | _ => raise (TypeError "not an int")
  end.

Definition get_figure (x : string) : Script Figure :=
  v ← lookup_name x;
  match v with
  | VFigure f => mret f
  | _ => raise (TypeError "not a figure")
  end.

(** A streamlit call that only draws: the name [st] is read. *)
Definition st_call : Script unit := _ ← lookup_name "st"; mret ().

(** [st.sidebar.error(msg)]. *)
Definition st_sidebar_error (msg : string) : Script unit :=
  _ ← lookup_name "st";
  modify (λ σ, mkState (namespace σ) (heap σ) (environ σ)
                       (sidebar_errors σ ++ [msg]) (rendered σ)).

(** [x = px.kind(frame, ...)]: the figure takes the frame as it is now. *)
Definition px_figure (x kind frame : string) : Script unit :=
  _ ← lookup_name "px";
  o ← get_object frame;
  bind_name x (VFigure (mkFigure kind o)).

(** [st.plotly_chart(fig)]. *)
Definition st_plotly_chart (fig : string) : Script unit :=
  _ ← lookup_name "st";
  f ← get_figure fig;
  modify (λ σ, mkState (namespace σ) (heap σ) (environ σ)
                       (sidebar_errors σ) (rendered σ ++ [f])).

(** Line 6: [os.environ["COVID19PANDAS_CACHE_DIR"] = "./covid_data"]. *)
Definition set_cache_dir : Script unit :=
  _ ← lookup_name "os";
  modify (λ σ, mkState (namespace σ) (heap σ)
                       (<["COVID19PANDAS_CACHE_DIR" := "./covid_data"]> (environ σ))
                       (sidebar_errors σ) (rendered σ)).

(** Lines 1-4. *)
Definition imports : Script unit :=
  import_as "streamlit" "st";;
  import_as "covid19pandas" "cod";;
  import_as "pandas" "pd";;
  import_as "plotly.express" "px".

(** [df[[... the seven columns ...]]]: a new frame with the base columns only. *)
Definition select_base (df : DataFrame) : DataFrame :=
  mkFrame (index df) (records df) [].

(** Lines 8-15: load, select the columns, convert the dates. *)
Definition load_data (inp : Inputs) : Script unit :=
  _ ← lookup_name "cod";
  v ← alloc (ODataFrame (provider inp));
  bind_name "global_df" v;;
  ldf ← get_frame "global_df";
  v ← alloc (ODataFrame (select_base ldf.2));
  bind_name "global_df" v;;
  _ ← lookup_name "pd";
  ldf ← get_frame "global_df";
  store ldf.1 (ODataFrame ldf.2).

(** Lines 17-55: the global trend of one metric over a date range. *)
Definition global_trend (inp : Inputs) : Script unit :=
  st_call;; st_call;; st_call;;
  _ ← lookup_name "st";
  _ ← get_frame "global_df";
  bind_name "start_date" (VDate (in_start_date inp));;
  _ ← lookup_name "st";
  _ ← get_frame "global_df";
  bind_name "end_date" (VDate (in_end_date inp));;
  s ← get_date "start_date";
  e ← get_date "end_date";
  (if (s >? e)%Z then st_sidebar_error "Start date must be before end date." else mret ());;
  _ ← lookup_name "st";
  bind_name "case_type" (VMetric (in_case_type inp));;
  ldf ← get_frame "global_df";
  _ ← lookup_name "pd";
  s ← get_date "start_date";
  e ← get_date "end_date";
  v ← alloc (ODataFrame (filterByDateRange s e ldf.2));
  bind_name "filtered_df" v;;
  ldf ← get_frame "filtered_df";
  m ← get_metric "case_type";
  v ← alloc (OTotals (sumByDate m ldf.2));
  bind_name "df_grouped" v;;
  st_call;;
  px_figure "fig" "line" "df_grouped";;
  st_plotly_chart "fig".

(** Lines 61-97: totals of two selected countries. *)
Definition compare_countries (inp : Inputs) : Script unit :=
  st_call;; st_call;; st_call;;
  _ ← lookup_name "st";
  _ ← get_frame "global_df";
  bind_name "country1" (VStr (in_country1 inp));;
  _ ← lookup_name "st";
  _ ← get_frame "global_df";
  bind_name "country2" (VStr (in_country2 inp));;
  c1 ← get_str "country1";
  c2 ← get_str "country2";
  bind_name "selected_countries" (VStrs [c1; c2]);;
  ldf ← get_frame "global_df";
  sel ← get_strs "selected_countries";
  v ← alloc (ODataFrame (getitem_mask (λ o, isin sel (Country_Region o)) ldf.2));
  bind_name "country_df" v;;
  ldf ← get_frame "country_df";
  v ← alloc (OSummary (sumByEntity ldf.2));
  bind_name "country_summary" v;;
  st_call;;
  px_figure "fig_cases" "pie" "country_summary";;
  st_plotly_chart "fig_cases";;
  px_figure "fig_deaths" "pie" "country_summary";;
  st_plotly_chart "fig_deaths";;
  px_figure "fig_recovered" "pie" "country_summary";;
  st_plotly_chart "fig_recovered".

(** Lines 114 and 188: [latest_date = global_df["date"].max()]. *)
Definition bind_latest_date : Script unit :=
  ldf ← get_frame "global_df";
  bind_name "latest_date" (VTimestamp (max_date (map date (records ldf.2)))).

(** Lines 117 and 189: [latest_df = global_df[global_df["date"] == latest_date]]. *)
Definition bind_latest_df : Script unit :=
  ldf ← get_frame "global_df";
  _ ← get_frame "global_df";
  d ← get_timestamp "latest_date";
  v ← alloc (ODataFrame (rows_at d ldf.2));
  bind_name "latest_df" v.

(** Lines 99-134: the top N countries at the latest date. *)
Definition top_countries `{Quicksort} (inp : Inputs) : Script unit :=
  st_call;; st_call;;
  _ ← lookup_name "st";
  bind_name "n" (VInt (in_n inp));;
  _ ← lookup_name "st";
  bind_name "metric" (VMetric (in_metric inp));;
  bind_latest_date;;
  bind_latest_df;;
  ldf ← get_frame "latest_df";
  m ← get_metric "metric";
  v ← alloc (ORanking (sum_per_country m ldf.2));
  bind_name "top_n_countries" v;;
  t ← get_ranking "top_n_countries";
  _ ← get_metric "metric";
  n ← get_int "n";
  v ← alloc (ORanking (head_n n (sort_values_desc t)));
  bind_name "top_n_countries" v;;
  px_figure "fig_top_n" "bar" "top_n_countries";;
  st_plotly_chart "fig_top_n".

(** Lines 148-149 and 182-185: sort a copy, write the daily column into
    [global_df] itself. *)
Definition write_daily_column : Script unit :=
  ldf ← get_frame "global_df";
  v ← alloc (ODataFrame (sort_values_country_date ldf.2));
  bind_name "global_df_sorted" v;;
  lsorted ← get_frame "global_df_sorted";
  m ← get_metric "daily_metric";
  ldf ← get_frame "global_df";
  m' ← get_metric "daily_metric";
  df' ← lift_result (setitem ("daily_" +:+ metric_name m') (daily_series m lsorted.2) ldf.2);
  store ldf.1 (ODataFrame df').

(** Lines 136-164: the global daily increase. *)
Definition daily_new (inp : Inputs) : Script unit :=
  st_call;; st_call;;
  _ ← lookup_name "st";
  bind_name "daily_metric" (VMetric (in_daily_metric inp));;
  write_daily_column;;
  ldf ← get_frame "global_df";
  m ← get_metric "daily_metric";
  t ← lift_result (sumByDate_derived ("daily_" +:+ metric_name m) ldf.2);
  v ← alloc (OTotals t);
  bind_name "daily_global" v;;
  px_figure "fig_daily" "line" "daily_global";;
  st_plotly_chart "fig_daily".

(** Lines 166-209: the daily increase in the top N countries. *)
Definition daily_top_n `{Quicksort} (inp : Inputs) : Script unit :=
  st_call;; st_call;;
  _ ← lookup_name "st";
  bind_name "daily_metric" (VMetric (in_daily_metric_top inp));;
  _ ← lookup_name "st";
  bind_name "top_n" (VInt (in_top_n inp));;
  write_daily_column;;
  bind_latest_date;;
  bind_latest_df;;
  ldf ← get_frame "latest_df";
  m ← get_metric "daily_metric";
  v ← alloc (ORanking (sum_per_country m ldf.2));
  bind_name "top_n_countries" v;;
  t ← get_ranking "top_n_countries";
  _ ← get_metric "daily_metric";
  n ← get_int "top_n";
  bind_name "top_n_countries" (VStrs (map fst (head_n n (sort_values_desc t))));;
  ldf ← get_frame "global_df";
  _ ← get_frame "global_df";
  top ← get_strs "top_n_countries";
  v ← alloc (ODataFrame (getitem_mask (λ o, isin top (Country_Region o)) ldf.2));
  bind_name "filtered_top_n_df" v;;
  px_figure "fig_daily_top_n" "line" "filtered_top_n_df";;
  st_plotly_chart "fig_daily_top_n".

(** [df[mask][["date", metric]]]: a new two-column frame. *)
Definition select_date_metric (m : Metric) (df : DataFrame) : Frame (Z * Z) :=
  mkFrame (index df) (map (λ o, (date o, metric_of m o)) (records df)) [].

(** [sort_values(by="date")] on the slice: one key, the default [kind]. *)
Definition sort_values_date `{Quicksort} (f : Frame (Z * Z)) : Frame (Z * Z) :=
  take_rows (nargsort true (map fst (records f))) f.

(** The Series on the right of line 234: [country_data[metric].diff().fillna(0)]. *)
Definition new_series (f : Frame (Z * Z)) : Series :=
  mkSeries (index f) (fillna 0 (diff (map snd (records f)))).

(** [melt(id_vars="date")]: the value columns stacked, in column order; with
    a float64 column among them the stacked column is float64, and the int64
    metric is cast. *)
Definition melt (m : Metric) (f : Frame (Z * Z)) : list (Z * string * option Z) :=
  let dates := map fst (records f) in
  let value_vars :=
    match derived f with
    | [] => [(metric_name m, map (λ r, Some r.2) (records f))]
    | _ => (metric_name m, map (λ r, Some (float64_of_int r.2)) (records f)) :: derived f
    end in
  flat_map (λ c, zip_with (λ d v, (d, c.1, v)) dates c.2) value_vars.

(** Lines 212-250: the trend of one country. *)
Definition country_trends `{Quicksort} (inp : Inputs) : Script unit :=
  st_call;; st_call;;
  _ ← lookup_name "st";
  _ ← get_frame "global_df";
  bind_name "selected_country" (VStr (in_selected_country inp));;
  _ ← lookup_name "st";
  bind_name "selected_metric" (VMetric (in_selected_metric inp));;
  ldf ← get_frame "global_df";
  _ ← get_frame "global_df";
  c ← get_str "selected_country";
  m ← get_metric "selected_metric";
  v ← alloc (OSlice m (select_date_metric m
               (getitem_mask (λ o, bool_decide (Country_Region o = c)) ldf.2)));
  bind_name "country_data" v;;
  lf ← get_slice "country_data";
  v ← alloc (OSlice lf.2.1 (sort_values_date lf.2.2));
  bind_name "country_data" v;;
  lf ← get_slice "country_data";
  m ← get_metric "selected_metric";
  (if decide (m = lf.2.1) then mret () else raise (KeyError (metric_name m)));;
  lf' ← get_slice "country_data";
  m' ← get_metric "selected_metric";
  f' ← lift_result (setitem ("new_" +:+ metric_name m') (new_series lf.2.2) lf'.2.2);
  store lf'.1 (OSlice lf'.2.1 f');;
  lf ← get_slice "country_data";
  v ← alloc (OMelted (melt lf.2.1 lf.2.2));
  bind_name "country_data_melted" v;;
  px_figure "fig_country" "line" "country_data_melted";;
  st_plotly_chart "fig_country".

(** Lines 252-264: the world map. *)
Definition world_map : Script unit :=
  st_call;;
  px_figure "fig" "choropleth" "global_df";;
  st_plotly_chart "fig".

(** The whole script, top to bottom. *)
Definition app `{Quicksort} (inp : Inputs) : Script unit :=
  imports;;
  set_cache_dir;;
  load_data inp;;
  global_trend inp;;
  compare_countries inp;;
  top_countries inp;;
  daily_new inp;;
  daily_top_n inp;;
  country_trends inp;;
  world_map.

(** Lines 8-264: what the script would go on to do after line 6. *)
Definition after_line_6 `{Quicksort} (inp : Inputs) : Script unit :=
  load_data inp;;
  global_trend inp;;
  compare_countries inp;;
  top_countries inp;;
  daily_new inp;;
  daily_top_n inp;;
  country_trends inp;;
  world_map.

(** The state a run starts from: nothing bound, nothing allocated. *)
Definition initial_state : State := mkState ∅ ∅ ∅ [] [].

(** A stable instance of the quicksort interface: insertion on the values. *)
#[export] Instance insertion_argsort : Quicksort := λ vs, lexsort_indexer vs.

(** A row with one province per country and only the case counter set. *)
Definition ob (d : Z) (c : string) (v : Z) : Obs := mkObs d c "" c v 0 0.

(** [wp c Q σ]: from [σ], the statement [c] ends normally, with a result and
    a state that satisfy [Q]. *)
Definition wp {A} (c : Script A) (Q : A → State → Prop) (σ : State) : Prop :=
  match c σ with
  | (Ok a, σ') => Q a σ'
  | (Raise _, _) => False
  end.

(** The state every section after the load runs in: the four modules are
    bound and [global_df] refers to a frame with unique labels. *)
Definition loaded (g : loc) (σ : State) : Prop :=
  (∃ st pd px : Value,
      namespace σ !! "st" = Some st
      ∧ namespace σ !! "pd" = Some pd
      ∧ namespace σ !! "px" = Some px)
  ∧ namespace σ !! "global_df" = Some (VRef g)
  ∧ ∃ df : DataFrame, heap σ !! g = Some (ODataFrame df) ∧ unique_index df.



(** The table of the specification's ranking example, the two tied
    entities entered as C then B. *)
Definition example_ties : DataFrame :=
  from_records [ob 7 "C" 80; ob 7 "A" 50; ob 7 "B" 80; ob 7 "D" 10].

(** Two tied entities, in the two possible row orders. *)
Definition ties_C_B : DataFrame := from_records [ob 7 "C" 80; ob 7 "B" 80].
Definition ties_B_C : DataFrame := from_records [ob 7 "B" 80; ob 7 "C" 80].

(** A table of two entities with interleaved rows, out of date order. *)
Definition example_table : DataFrame :=
  from_records [ob 2 "B" 130; ob 1 "A" 5; ob 1 "B" 100; ob 3 "A" 4; ob 2 "A" 9].

(** One set of widget values over [example_table], and the state a run
    would be in after the imports and the load. *)
Definition example_inputs : Inputs :=
  mkInputs example_table 3 1 cases "A" "B" 5 cases cases deaths 5 "A" cases.

Definition example_state : State :=
  ((imports;; load_data example_inputs) initial_state).2.

(** * Properties *)

(** ** The key orders are total orders *)

#[export] Instance Z_KeyOrderLaws : KeyOrderLaws Z.
Proof.
  split; unfold key_cmp, Z_KeyOrder.
  - intros x y. apply Z.compare_eq_iff.
  - intros x y. apply Z.compare_antisym.
  - intros x y z. rewrite !Z.compare_lt_iff. lia.
Qed.

#[export] Instance string_KeyOrderLaws : KeyOrderLaws string.
Proof.
  split; unfold key_cmp, string_KeyOrder.
  - intros x y. apply OrderedTypeEx.String_as_OT.cmp_eq.
  - intros x y. apply OrderedTypeEx.String_as_OT.cmp_antisym.
  - intros x y z Hxy Hyz.
    apply OrderedTypeEx.String_as_OT.cmp_lt.
    apply OrderedTypeEx.String_as_OT.cmp_lt in Hxy, Hyz.
    eapply OrderedTypeEx.String_as_OT.lt_trans; eassumption.
Qed.

#[export] Instance prod_KeyOrderLaws {A B} `{KeyOrderLaws A, KeyOrderLaws B} :
  KeyOrderLaws (A * B).
Proof.
  split; unfold key_cmp, prod_KeyOrder.
  - intros [a b] [a' b']; simpl. destruct (key_cmp a a') eqn:Ea.
    + apply key_cmp_eq in Ea as ->. rewrite key_cmp_eq. naive_solver.
    + split; [done|]. intros [= -> ->].
      assert (key_cmp a' a' = Eq) as E by by apply key_cmp_eq.
      congruence.
    + split; [done|]. intros [= -> ->].
      assert (key_cmp a' a' = Eq) as E by by apply key_cmp_eq.
      congruence.
  - intros [a b] [a' b']; simpl. rewrite (key_cmp_antisym a a').
    destruct (key_cmp a a'); simpl; [apply key_cmp_antisym|done..].
  - intros [a b] [a' b'] [a'' b'']; simpl.
    destruct (key_cmp a a') eqn:E1; [| |done].
    + apply key_cmp_eq in E1 as ->.
      destruct (key_cmp a' a'') eqn:E2; [|done..].
      apply key_lt_trans.
    + intros _. destruct (key_cmp a' a'') eqn:E2; [| |done].
      * apply key_cmp_eq in E2 as <-. by intros _; rewrite E1.
      * intros _. by rewrite (key_lt_trans _ _ _ E1 E2).
Qed.

Section key_order.
Context {K : Type} `{KeyOrderLaws K}.
Implicit Types x y z : K.

Lemma key_cmp_refl x : key_cmp x x = Eq.
Proof. by apply key_cmp_eq. Qed.

Lemma key_cmp_gt x y : key_cmp x y = Gt ↔ key_cmp y x = Lt.
Proof. rewrite (key_cmp_antisym x y). destruct (key_cmp x y); naive_solver. Qed.

Lemma key_eqb_eq x y : key_eqb x y = true ↔ x = y.
Proof.
  unfold key_eqb. rewrite <-key_cmp_eq. destruct (key_cmp x y); naive_solver.
Qed.

Lemma key_lt_irrefl x : ¬ key_lt x x.
Proof. unfold key_lt. by rewrite key_cmp_refl. Qed.

#[export] Instance key_lt_strict : StrictOrder (@key_lt K _).
Proof.
  split.
  - intros x. apply key_lt_irrefl.
  - intros x y z. apply key_lt_trans.
Qed.

Lemma key_lt_asym x y : key_lt x y → key_lt y x → False.
Proof. intros Hxy Hyx. apply (key_lt_irrefl x). by etrans. Qed.

Lemma key_le_lt_eq x y : key_le x y ↔ key_lt x y ∨ x = y.
Proof.
  unfold key_le, key_lt. rewrite <-key_cmp_eq.
  destruct (key_cmp x y); naive_solver.
Qed.

Lemma key_leb_le x y : key_leb x y = true ↔ key_le x y.
Proof. unfold key_leb, key_le. destruct (key_cmp x y); naive_solver. Qed.

Lemma key_leb_false x y : key_leb x y = false ↔ key_lt y x.
Proof.
  unfold key_leb, key_lt. rewrite <-key_cmp_gt.
  destruct (key_cmp x y); naive_solver.
Qed.

#[export] Instance key_le_trans : Transitive (@key_le K _).
Proof.
  intros x y z. rewrite !key_le_lt_eq.
  intros [?| ->] [?| ->]; eauto. left. by etrans.
Qed.

(** ** Group keys: ascending, without duplicates, exactly the keys present *)

Lemma elem_of_insert_key k x (ks : list K) :
  x ∈ insert_key k ks ↔ x = k ∨ x ∈ ks.
Proof.
  induction ks as [|k' ks IH]; simpl.
  - set_solver.
  - destruct (key_cmp k k') eqn:E.
    + apply key_cmp_eq in E as ->. set_solver.
    + set_solver.
    + rewrite !elem_of_cons, IH. naive_solver.
Qed.

Lemma insert_key_sorted k (ks : list K) :
  StronglySorted key_lt ks → StronglySorted key_lt (insert_key k ks).
Proof.
  induction 1 as [|k' ks Hs IH Hk']; simpl.
  - repeat constructor.
  - destruct (key_cmp k k') eqn:E.
    + by constructor.
    + constructor; [by constructor|]. constructor; [done|].
      eapply Forall_impl; [done|]. intros z Hz. by trans k'.
    + constructor; [done|]. apply Forall_forall. intros z Hz.
      apply elem_of_insert_key in Hz as [->|Hz].
      * by apply key_cmp_gt.
      * by eapply Forall_forall in Hk'.
Qed.

Lemma group_keys_sorted (ks : list K) : StronglySorted key_lt (group_keys ks).
Proof.
  induction ks; simpl; [constructor|]. by apply insert_key_sorted.
Qed.

Lemma elem_of_group_keys k (ks : list K) : k ∈ group_keys ks ↔ k ∈ ks.
Proof.
  induction ks as [|k' ks IH]; simpl; [done|].
  rewrite elem_of_insert_key, IH. set_solver.
Qed.

Lemma key_sorted_NoDup (ks : list K) : StronglySorted key_lt ks → NoDup ks.
Proof.
  induction 1 as [|k ks Hs IH Hk]; constructor; [|done].
  intros Hin. eapply Forall_forall in Hk; [|done]. by apply key_lt_irrefl in Hk.
Qed.

Lemma group_keys_NoDup (ks : list K) : NoDup (group_keys ks).
Proof. apply key_sorted_NoDup, group_keys_sorted. Qed.

Lemma key_sorted_unique (l1 l2 : list K) :
  StronglySorted key_lt l1 → StronglySorted key_lt l2 →
  (∀ k, k ∈ l1 ↔ k ∈ l2) → l1 = l2.
Proof.
  intros H1 H2 Hel. apply (StronglySorted_unique_strong key_lt); [|done..|].
  - intros x1 x2 _ _ H12 H21. destruct (key_lt_asym _ _ H12 H21).
  - apply NoDup_Permutation; auto using key_sorted_NoDup.
Qed.

Lemma group_keys_perm (ks ks' : list K) : ks ≡ₚ ks' → group_keys ks = group_keys ks'.
Proof.
  intros Hp. apply key_sorted_unique; auto using group_keys_sorted.
  intros k. by rewrite !elem_of_group_keys, Hp.
Qed.

Lemma group_keys_nil_inv (ks : list K) : group_keys ks = [] → ks = [].
Proof.
  destruct ks as [|k ks]; [done|]. intros E.
  assert (k ∈ group_keys (k :: ks)) as Hk by (apply elem_of_group_keys; left).
  rewrite E in Hk. by apply elem_of_nil in Hk.
Qed.

End key_order.

(** ** Sums *)

Lemma Zsum_perm (l l' : list Z) : l ≡ₚ l' → foldr Z.add 0 l = foldr Z.add 0 l'.
Proof.
  induction 1; simpl; lia.
Qed.

Lemma Zsum_app (l l' : list Z) :
  foldr Z.add 0 (l ++ l') = foldr Z.add 0 l + foldr Z.add 0 l'.
Proof. induction l; simpl; lia. Qed.

(** *** 64-bit sums *)

Lemma wrap64_range (z : Z) : - 2 ^ 63 ≤ wrap64 z < 2 ^ 63.
Proof.
  unfold wrap64. pose proof (Z.mod_pos_bound (z + 2 ^ 63) (2 ^ 64)). lia.
Qed.

Lemma wrap64_id (z : Z) : - 2 ^ 63 ≤ z < 2 ^ 63 → wrap64 z = z.
Proof. intros Hz. unfold wrap64. rewrite Z.mod_small; lia. Qed.

Lemma wrap64_congr (z : Z) : (wrap64 z - z) mod 2 ^ 64 = 0.
Proof.
  unfold wrap64.
  rewrite (Z.mod_eq (z + 2 ^ 63) (2 ^ 64)) by lia.
  replace (z + 2 ^ 63 - 2 ^ 64 * ((z + 2 ^ 63) / 2 ^ 64) - 2 ^ 63 - z)
    with (- ((z + 2 ^ 63) / 2 ^ 64) * 2 ^ 64) by lia.
  apply Z.mod_mul. lia.
Qed.

(** An int64 is determined by its residue: the one value of the range
    congruent to the exact result. *)
Lemma int64_unique (t z : Z) :
  - 2 ^ 63 ≤ t < 2 ^ 63 → (t - z) mod 2 ^ 64 = 0 → t = wrap64 z.
Proof.
  intros Ht Hmod. pose proof (wrap64_range z) as Hw.
  pose proof (wrap64_congr z) as Hc.
  apply Z.mod_divide in Hmod as [a Ha]; [|lia].
  apply Z.mod_divide in Hc as [b Hb]; [|lia].
  assert (a = b) by lia. lia.
Qed.

Lemma wrap64_add_l (a b : Z) : wrap64 (wrap64 a + b) = wrap64 (a + b).
Proof.
  apply int64_unique; [apply wrap64_range|].
  pose proof (wrap64_congr (wrap64 a + b)) as H1.
  pose proof (wrap64_congr a) as H2.
  apply Z.mod_divide in H1 as [x Hx]; [|lia].
  apply Z.mod_divide in H2 as [y Hy]; [|lia].
  apply Z.mod_divide; [lia|]. exists (x + y). lia.
Qed.

Lemma foldl_int64_add (a : Z) (l : list Z) :
  wrap64 (foldl int64_add a l) = wrap64 (a + foldr Z.add 0 l).
Proof.
  revert a. induction l as [|v l IH]; intros a; cbn [foldl foldr].
  - by rewrite Z.add_0_r.
  - rewrite IH. unfold int64_add. rewrite wrap64_add_l. f_equal. lia.
Qed.

Lemma foldl_int64_add_range (a : Z) (l : list Z) :
  - 2 ^ 63 ≤ a < 2 ^ 63 → - 2 ^ 63 ≤ foldl int64_add a l < 2 ^ 63.
Proof.
  revert a. induction l as [|v l IH]; intros a Ha; cbn [foldl]; [done|].
  apply IH, wrap64_range.
Qed.

(** The running 64-bit total is the exact sum, wrapped once. *)
Lemma int64_sum_wrap (l : list Z) : int64_sum l = wrap64 (foldr Z.add 0 l).
Proof.
  unfold int64_sum. rewrite <-(wrap64_id (foldl int64_add 0 l)).
  - by rewrite foldl_int64_add.
  - apply foldl_int64_add_range. lia.
Qed.

Lemma int64_sum_perm (l l' : list Z) : l ≡ₚ l' → int64_sum l = int64_sum l'.
Proof. intros Hp. rewrite !int64_sum_wrap. f_equal. by apply Zsum_perm. Qed.

(** What a 64-bit total is, in terms of the exact sum alone: an int64
    congruent to it, hence the sum itself when the sum is an int64. *)
Lemma int64_sum_spec (l : list Z) :
  let s := foldr Z.add 0 l in
  - 2 ^ 63 ≤ int64_sum l < 2 ^ 63
  ∧ (int64_sum l - s) mod 2 ^ 64 = 0
  ∧ (- 2 ^ 63 ≤ s < 2 ^ 63 → int64_sum l = s).
Proof.
  cbv zeta. rewrite int64_sum_wrap.
  split; [apply wrap64_range|]. split; [apply wrap64_congr|]. apply wrap64_id.
Qed.

(** *** Floats that are whole numbers *)

Lemma float64_of_int_exact (z : Z) :
  - 2 ^ 53 ≤ z ≤ 2 ^ 53 → float64_of_int z = z.
Proof.
  intros Hz. unfold float64_of_int.
  destruct (Z.leb_spec (Z.abs z) (2 ^ 53)) as [_|Habs]; [done|lia].
Qed.

Lemma float64_sub_exact (a b : Z) :
  - 2 ^ 53 ≤ a - b ≤ 2 ^ 53 → float64_sub a b = a - b.
Proof. apply float64_of_int_exact. Qed.


Lemma groupby_sub_exact (cur prev : Z) :
  - 2 ^ 53 ≤ prev ≤ 2 ^ 53 → - 2 ^ 53 ≤ cur ≤ 2 ^ 53 →
  - 2 ^ 53 ≤ cur - prev ≤ 2 ^ 53 →
  groupby_sub cur prev = cur - prev.
Proof.
  intros Hp Hc Hd. unfold groupby_sub.
  rewrite !float64_of_int_exact by done. by apply float64_sub_exact.
Qed.

Lemma series_sub_exact (cur prev : Z) :
  - 2 ^ 53 ≤ cur - prev ≤ 2 ^ 53 →
  float64_of_int (int64_sub cur prev) = cur - prev.
Proof.
  intros Hd. unfold int64_sub. rewrite wrap64_id by lia.
  by apply float64_of_int_exact.
Qed.




(** The two roundings at work. *)
Example int64_sum_wraps : int64_sum [2 ^ 63 - 1; 1] = - 2 ^ 63.
Proof. by vm_compute. Qed.

Example float64_of_int_rounds :
  float64_of_int (2 ^ 53 + 1) = 2 ^ 53
  ∧ float64_of_int (2 ^ 53 + 3) = 2 ^ 53 + 4
  ∧ float64_of_int (- (2 ^ 53 + 1)) = - 2 ^ 53
  ∧ float64_of_int (2 ^ 54 + 2) = 2 ^ 54
  ∧ float64_of_int (2 ^ 54 + 6) = 2 ^ 54 + 8
  ∧ float64_of_int (2 ^ 63 - 1) = 2 ^ 63.
Proof. by vm_compute. Qed.

(** ** Boolean-mask selection *)

Lemma mask_select_nil_r {A} (mask : list bool) : mask_select mask (@nil A) = [].
Proof. by destruct mask as [|[] ?]. Qed.

Lemma mask_select_filter {A} (p : A → bool) (l : list A) :
  mask_select (map p l) l = filter (λ x, p x = true) l.
Proof.
  induction l as [|x l IH]; simpl; [done|].
  rewrite filter_cons, IH. case_decide as E.
  - by rewrite E.
  - by destruct (p x).
Qed.

Lemma mask_select_sublist {A} (mask : list bool) (l : list A) :
  mask_select mask l `sublist_of` l.
Proof.
  revert l. induction mask as [|b mask IH]; intros [|x l]; simpl;
    try apply sublist_nil_l.
  destruct b; [by apply sublist_skip|by apply sublist_cons].
Qed.

Lemma mask_select_length {A} (mask : list bool) (l : list A) :
  length mask = length l →
  length (mask_select mask l) = length (filter (λ b, b = true) mask).
Proof.
  revert l. induction mask as [|b mask IH]; intros [|x l] Hlen; simpl in *;
    try done.
  rewrite filter_cons. case_decide as E; subst; simpl.
  - f_equal. apply IH. lia.
  - destruct b; [done|]. apply IH. lia.
Qed.

(** Selecting again with the mask of the selected rows changes nothing,
    whatever the length of the column. *)
Lemma mask_select_again {A R} (p : R → bool) (rs : list R) (l : list A) :
  mask_select (map p (mask_select (map p rs) rs)) (mask_select (map p rs) l)
  = mask_select (map p rs) l.
Proof.
  revert l. induction rs as [|r rs IH]; intros l; simpl; [done|].
  destruct l as [|x l].
  - by rewrite ?mask_select_nil_r; destruct (p r); rewrite ?mask_select_nil_r.
  - destruct (p r) eqn:E; simpl; [|apply IH].
    rewrite E. f_equal. apply IH.
Qed.

Lemma getitem_mask_records {R} (p : R → bool) (df : Frame R) :
  records (getitem_mask p df) = filter (λ r, p r = true) (records df).
Proof. apply mask_select_filter. Qed.

Lemma getitem_mask_idemp {R} (p : R → bool) (df : Frame R) :
  getitem_mask p (getitem_mask p df) = getitem_mask p df.
Proof.
  unfold getitem_mask; simpl. f_equal.
  - apply mask_select_again.
  - apply mask_select_again.
  - rewrite map_map. apply map_ext. intros [name col]; simpl.
    f_equal. apply mask_select_again.
Qed.

(** ** Positional selection *)

Lemma take_pos_cons {A} (i : nat) (a : list nat) (l : list A) :
  take_pos (i :: a) l =
    match l !! i with
    | Some x => x :: take_pos a l
    | None => take_pos a l
    end.
Proof. done. Qed.

Lemma take_pos_app {A} (a b : list nat) (l : list A) :
  take_pos (a ++ b) l = take_pos a l ++ take_pos b l.
Proof. apply omap_app. Qed.

Lemma take_pos_seq_app {A} (l1 l2 : list A) :
  take_pos (seq (length l1) (length l2)) (l1 ++ l2) = l2.
Proof.
  revert l1. induction l2 as [|x l2 IH]; intros l1; [done|].
  cbn [length seq]. rewrite take_pos_cons.
  rewrite lookup_app_r, Nat.sub_diag by lia. cbn [lookup list_lookup]. f_equal.
  specialize (IH (l1 ++ [x])). rewrite length_app, <-app_assoc in IH; simpl in IH.
  by rewrite Nat.add_1_r in IH.
Qed.

Lemma take_pos_seq {A} (l : list A) : take_pos (seq 0 (length l)) l = l.
Proof. apply (take_pos_seq_app []). Qed.

Lemma take_pos_perm {A} (a : list nat) (l : list A) :
  a ≡ₚ seq 0 (length l) → take_pos a l ≡ₚ l.
Proof.
  intros Hp. trans (take_pos (seq 0 (length l)) l).
  - unfold take_pos. by rewrite Hp.
  - by rewrite take_pos_seq.
Qed.

Lemma take_pos_reverse {A} (a : list nat) (l : list A) :
  take_pos (reverse a) l = reverse (take_pos a l).
Proof.
  induction a as [|i a IH]; [done|].
  rewrite reverse_cons, take_pos_app, IH, !take_pos_cons.
  destruct (l !! i); [by rewrite reverse_cons|by rewrite app_nil_r].
Qed.

Lemma take_pos_fmap {A B} (f : A → B) (a : list nat) (l : list A) :
  take_pos a (map f l) = map f (take_pos a l).
Proof.
  induction a as [|i a IH]; [done|].
  rewrite !take_pos_cons, IH. change (map f l) with (f <$> l).
  rewrite list_lookup_fmap. by destruct (l !! i).
Qed.

Lemma take_pos_length_le {A} (a : list nat) (l : list A) :
  (length (take_pos a l) ≤ length a)%nat.
Proof.
  induction a as [|i a IH]; [done|].
  rewrite take_pos_cons. destruct (l !! i); simpl; lia.
Qed.

(** With every position of [b] in range, [take_pos b l] is [l] read at [b]. *)
Lemma take_pos_lookup {A} (b : list nat) (l : list A) (j : nat) :
  Forall (λ i, (i < length l)%nat) b →
  take_pos b l !! j = b !! j ≫= (l !!.).
Proof.
  intros Hb. revert j.
  induction Hb as [|i b Hi Hb IH]; intros j; [done|].
  rewrite take_pos_cons.
  apply lookup_lt_is_Some in Hi as [x Hx]. rewrite Hx.
  destruct j as [|j]; simpl; [done|]. apply IH.
Qed.

Lemma take_pos_length {A} (b : list nat) (l : list A) :
  Forall (λ i, (i < length l)%nat) b → length (take_pos b l) = length b.
Proof.
  induction 1 as [|i b Hi Hb IH]; [done|].
  rewrite take_pos_cons.
  apply lookup_lt_is_Some in Hi as [x Hx]. rewrite Hx. simpl. by f_equal.
Qed.

Lemma take_pos_compose {A} (a b : list nat) (l : list A) :
  Forall (λ i, (i < length l)%nat) b →
  take_pos (take_pos a b) l = take_pos a (take_pos b l).
Proof.
  intros Hb. induction a as [|j a IH]; [done|].
  rewrite (take_pos_cons j a (take_pos b l)), (take_pos_lookup b l j Hb).
  rewrite (take_pos_cons j a b).
  destruct (b !! j) as [i|] eqn:Ej; cbn [mbind option_bind]; [|done].
  eapply Forall_forall in Hb; [|by eapply list_elem_of_lookup_2].
  apply lookup_lt_is_Some in Hb as [x Hx].
  rewrite take_pos_cons, Hx. by f_equal.
Qed.

Lemma seq_in_range (n : nat) : Forall (λ i, (i < n)%nat) (seq 0 n).
Proof. apply Forall_forall. intros i Hi. apply elem_of_seq in Hi. lia. Qed.

Lemma perm_seq_in_range (a : list nat) (n : nat) :
  a ≡ₚ seq 0 n → Forall (λ i, (i < n)%nat) a.
Proof. intros ->. apply seq_in_range. Qed.

Lemma take_pos_reverse_seq {A} (l : list A) :
  take_pos (reverse (seq 0 (length l))) l = reverse l.
Proof. by rewrite take_pos_reverse, take_pos_seq. Qed.

(** ** The stable sort *)

Lemma StronglySorted_mono {A} (R R' : relation A) (l : list A) :
  (∀ x y, R x y → R' x y) → StronglySorted R l → StronglySorted R' l.
Proof.
  intros HR. induction 1 as [|x l Hs IH Hx]; constructor; [done|].
  eapply Forall_impl; [done|]. auto.
Qed.

Section stable_sort.
Context {K : Type} `{KeyOrderLaws K}.
Implicit Types l : list (nat * K).

Lemma insert_by_key_perm x l : insert_by_key x l ≡ₚ x :: l.
Proof.
  induction l as [|y l IH]; simpl; [done|].
  destruct (key_leb x.2 y.2); [done|]. by rewrite IH, Permutation_swap.
Qed.

Lemma stable_sort_by_key_perm l : stable_sort_by_key l ≡ₚ l.
Proof.
  induction l as [|x l IH]; simpl; [done|].
  by rewrite insert_by_key_perm, IH.
Qed.

Lemma insert_by_key_sorted x l :
  StronglySorted (λ a b, key_le a.2 b.2) l →
  StronglySorted (λ a b, key_le a.2 b.2) (insert_by_key x l).
Proof.
  induction 1 as [|y l Hs IH Hy]; simpl.
  - repeat constructor.
  - destruct (key_leb x.2 y.2) eqn:E.
    + apply key_leb_le in E. constructor; [by constructor|].
      constructor; [done|]. eapply Forall_impl; [done|].
      intros z Hz; simpl in *. by trans y.2.
    + apply key_leb_false in E. constructor; [done|].
      apply Forall_forall. intros z Hz.
      rewrite insert_by_key_perm in Hz. apply elem_of_cons in Hz as [->|Hz].
      * apply key_le_lt_eq. by left.
      * by eapply Forall_forall in Hy.
Qed.

Lemma stable_sort_by_key_sorted l :
  StronglySorted (λ a b, key_le a.2 b.2) (stable_sort_by_key l).
Proof.
  induction l as [|x l IH]; simpl; [constructor|]. by apply insert_by_key_sorted.
Qed.

Lemma lexsort_indexer_perm (keys : list K) :
  lexsort_indexer keys ≡ₚ seq 0 (length keys).
Proof.
  unfold lexsort_indexer.
  change (map fst) with (fmap (M:=list) (@fst nat K)).
  rewrite stable_sort_by_key_perm, fst_zip; [done|]. by rewrite length_seq.
Qed.


(** The keys read at the indexer are the keys of the sorted pairs. *)
Lemma take_pos_lexsort_indexer (keys : list K) :
  take_pos (lexsort_indexer keys) keys
  = map snd (stable_sort_by_key (zip (seq 0 (length keys)) keys)).
Proof.
  unfold lexsort_indexer.
  assert (Forall (λ p, keys !! p.1 = Some p.2)
                 (stable_sort_by_key (zip (seq 0 (length keys)) keys))) as Hall.
  { rewrite stable_sort_by_key_perm. apply Forall_forall. intros [i k] Hik.
    apply list_elem_of_lookup in Hik as [j Hj]. apply lookup_zip_with_Some in Hj
      as (i' & k' & [= <- <-] & Hi & Hk).
    apply lookup_seq in Hi as [-> _]. done. }
  induction Hall as [|[i k] l Hik Hall IH]; [done|].
  cbn [map fst snd]. rewrite take_pos_cons. simpl in Hik. rewrite Hik. by f_equal.
Qed.

Lemma lexsort_indexer_sorted (keys : list K) :
  StronglySorted key_le (take_pos (lexsort_indexer keys) keys).
Proof.
  rewrite take_pos_lexsort_indexer.
  pose proof (stable_sort_by_key_sorted (zip (seq 0 (length keys)) keys)) as Hs.
  induction Hs as [|x l Hs IH Hx]; simpl; constructor; [done|].
  apply Forall_forall. intros k Hk.
  change (map snd l) with (snd <$> l) in Hk.
  apply list_elem_of_fmap in Hk as (y & -> & Hy).
  by eapply Forall_forall in Hx.
Qed.

Lemma insert_by_key_stable (x : nat * K) (l : list (nat * K)) :
  StronglySorted (λ a b, a.2 = b.2 → (a.1 < b.1)%nat) l →
  Forall (λ y, (x.1 < y.1)%nat) l →
  StronglySorted (λ a b, a.2 = b.2 → (a.1 < b.1)%nat) (insert_by_key x l).
Proof.
  induction 1 as [|y l Hs IH Hy]; intros Hx; simpl.
  - repeat constructor.
  - apply Forall_cons in Hx as [Hxy Hx].
    destruct (key_leb x.2 y.2) eqn:E.
    + constructor; [by constructor|].
      constructor; [done|]. eapply Forall_impl; [exact Hx|]. naive_solver.
    + apply key_leb_false in E. constructor; [by apply IH|].
      apply Forall_forall. intros z Hz.
      rewrite insert_by_key_perm in Hz. apply elem_of_cons in Hz as [->|Hz].
      * intros Heq. rewrite Heq in E. unfold key_lt in E.
        by rewrite key_cmp_refl in E.
      * by eapply Forall_forall in Hy.
Qed.

Lemma stable_sort_by_key_stable (n : nat) (keys : list K) :
  StronglySorted (λ a b, a.2 = b.2 → (a.1 < b.1)%nat)
                 (stable_sort_by_key (zip (seq n (length keys)) keys)).
Proof.
  revert n. induction keys as [|k keys IH]; intros n; simpl; [constructor|].
  apply insert_by_key_stable; [apply IH|].
  apply Forall_forall. intros [i k'] Hi.
  rewrite stable_sort_by_key_perm in Hi.
  apply list_elem_of_lookup in Hi as [j Hj]. apply lookup_zip_with_Some in Hj
    as (i' & k'' & [= <- <-] & Hi & Hk).
  apply lookup_seq in Hi as [-> _]. simpl. lia.
Qed.

(** The indexer is stable: of two positions with equal keys, the one that
    comes first in the input comes first in the indexer. *)
Lemma lexsort_indexer_stable (keys : list K) (j k i i' : nat) :
  (j < k)%nat →
  lexsort_indexer keys !! j = Some i → lexsort_indexer keys !! k = Some i' →
  keys !! i = keys !! i' → (i < i')%nat.
Proof.
  unfold lexsort_indexer. intros Hjk Hj Hk Heq.
  set (sorted := stable_sort_by_key (zip (seq 0 (length keys)) keys)) in *.
  assert (Forall (λ p, keys !! p.1 = Some p.2) sorted) as Hall.
  { subst sorted. rewrite stable_sort_by_key_perm. apply Forall_forall. intros [a b] Hab.
    apply list_elem_of_lookup in Hab as [c Hc]. apply lookup_zip_with_Some in Hc
      as (a' & b' & [= <- <-] & Ha & Hb).
    apply lookup_seq in Ha as [-> _]. done. }
  change (map fst sorted) with (fst <$> sorted) in Hj, Hk.
  rewrite list_lookup_fmap in Hj, Hk.
  destruct (sorted !! j) as [[a ka]|] eqn:Ej; [|done].
  destruct (sorted !! k) as [[b kb]|] eqn:Ek; [|done].
  simpl in Hj, Hk. injection Hj as ->. injection Hk as ->.
  pose proof (proj1 (Forall_lookup _ _) Hall _ _ Ej) as Ha.
  pose proof (proj1 (Forall_lookup _ _) Hall _ _ Ek) as Hb.
  simpl in Ha, Hb.
  pose proof (stable_sort_by_key_stable 0 keys) as Hs. fold sorted in Hs.
  assert (ka = kb) as Hkk by congruence.
  clear -Hs Ej Ek Hjk Hkk.
  revert j k Ej Ek Hjk. induction Hs as [|x l Hs IH Hx]; intros j k Ej Ek Hjk; [done|].
  destruct k as [|k]; [lia|]. destruct j as [|j].
  - simpl in Ej, Ek. injection Ej as ->.
    eapply Forall_lookup in Hx; [|exact Ek]. by apply Hx.
  - simpl in Ej, Ek. eapply IH; [done..|lia].
Qed.

End stable_sort.

(** Insertion on the values meets the quicksort interface. *)
#[export] Instance insertion_argsort_spec : @QuicksortSpec insertion_argsort.
Proof.
  split; unfold argsort, insertion_argsort.
  - intros vs. apply lexsort_indexer_perm.
  - intros vs. apply StronglySorted_Sorted.
    eapply StronglySorted_mono; [|apply (lexsort_indexer_sorted (K:=Z))].
    intros x y. unfold key_le, key_cmp, Z_KeyOrder. rewrite Z.compare_gt_iff. lia.
Qed.

(** ** The descending sort *)

Section quicksort.
Context `{QuicksortSpec}.

Lemma sort_values_desc_eq (rows : list (string * Z)) :
  sort_values_desc rows =
    reverse (take_pos (argsort (reverse (map snd rows))) (reverse rows)).
Proof.
  unfold sort_values_desc, nargsort.
  rewrite take_pos_reverse. f_equal.
  rewrite length_map, take_pos_compose.
  - by rewrite take_pos_reverse_seq.
  - apply Forall_forall. intros i Hi. apply elem_of_reverse, elem_of_seq in Hi. lia.
Qed.

Lemma sort_values_desc_perm (rows : list (string * Z)) :
  sort_values_desc rows ≡ₚ rows.
Proof.
  rewrite sort_values_desc_eq, reverse_Permutation.
  rewrite take_pos_perm; [apply reverse_Permutation|].
  rewrite argsort_perm. by rewrite !length_reverse, length_map.
Qed.

Lemma sort_values_desc_sorted (rows : list (string * Z)) :
  Sorted (flip Z.le) (map snd (sort_values_desc rows)).
Proof.
  rewrite sort_values_desc_eq.
  change (map snd) with (fmap (M:=list) (@snd string Z)).
  rewrite fmap_reverse. apply Sorted_reverse.
  change (fmap (M:=list) snd) with (map (@snd string Z)).
  rewrite <-take_pos_fmap.
  change (map snd (reverse rows)) with (snd <$> reverse rows).
  rewrite fmap_reverse. apply argsort_sorted.
Qed.


End quicksort.

(** ** First differences *)

Lemma diff_by_length (sub : Z → Z → Z) (vs : list Z) :
  length (diff_by sub vs) = length vs.
Proof.
  destruct vs as [|v rest]; simpl; [done|]. f_equal.
  revert v. induction rest as [|w rest IH]; intros v; simpl; [done|].
  f_equal. apply IH.
Qed.

Lemma diff_by_lookup_S (sub : Z → Z → Z) (vs : list Z) (i : nat) :
  diff_by sub vs !! S i =
    match vs !! i, vs !! S i with
    | Some prev, Some cur => Some (Some (sub cur prev))
    | _, _ => None
    end.
Proof.
  destruct vs as [|v rest]; simpl; [done|].
  revert v i. induction rest as [|w rest IH]; intros v i; simpl.
  - by destruct i.
  - destruct i as [|i]; simpl; [done|]. apply IH.
Qed.


Lemma diff_length (vs : list Z) : length (diff vs) = length vs.
Proof. apply diff_by_length. Qed.

Lemma diffSeries_length (vs : list Z) : length (diffSeries vs) = length vs.
Proof. unfold diffSeries. rewrite length_map. apply diff_length. Qed.

Lemma diffSeries_lookup_S (vs : list Z) (i : nat) :
  diffSeries vs !! S i =
    match vs !! i, vs !! S i with
    | Some prev, Some cur => Some (float64_of_int (int64_sub cur prev))
    | _, _ => None
    end.
Proof.
  unfold diffSeries, diff. rewrite list_lookup_fmap, diff_by_lookup_S.
  by destruct (vs !! i), (vs !! S i).
Qed.



(** C2 - [diffSeries] keeps the length of its input; the first delta is 0 and
    the delta at every later position [i] is [value[i] - value[i-1]], of
    either sign, wherever that difference is a number a float64 holds
    exactly (at most 2^53 in size: the column [diff] returns is float64);
    the empty sequence maps to the empty sequence, a singleton to [[0]],
    and [[10, 10, 15, 12]] to [[0, 0, 5, -3]]. *)
Theorem diffSeries_spec (vs : list Z) :
  length (diffSeries vs) = length vs
  ∧ diffSeries vs !! 0%nat = (λ _, 0) <$> vs !! 0%nat
  ∧ (∀ (i : nat) (prev cur : Z),
       vs !! i = Some prev → vs !! S i = Some cur →
       - 2 ^ 53 ≤ cur - prev ≤ 2 ^ 53 →
       diffSeries vs !! S i = Some (cur - prev))
  ∧ (∀ i : nat, vs !! S i = None → diffSeries vs !! S i = None)
  ∧ diffSeries [] = []
  ∧ (∀ v : Z, diffSeries [v] = [0])
  ∧ diffSeries [10; 10; 15; 12] = [0; 0; 5; -3].
Proof.
  split; [apply diffSeries_length|].
  split; [by destruct vs|].
  split.
  { intros i prev cur Hp Hc Hb.
    by rewrite diffSeries_lookup_S, Hp, Hc, series_sub_exact. }
  split.
  { intros i Hi. rewrite diffSeries_lookup_S, Hi. by destruct (vs !! i). }
  by repeat split.
Qed.

(** Beyond that size the last place of the float is coarser than a unit,
    and a difference is stored rounded. *)
Example diffSeries_rounds : diffSeries [0; 2 ^ 53 + 1] = [0; 2 ^ 53].
Proof. by vm_compute. Qed.

(** ** Date-range filter *)

Lemma filterByDateRange_records (s e : Z) (df : DataFrame) :
  records (filterByDateRange s e df) = filter (λ o, s ≤ date o ≤ e) (records df).
Proof.
  unfold filterByDateRange. rewrite getitem_mask_records.
  apply list_filter_iff. intros o.
  rewrite andb_true_iff, Z.geb_le, Z.leb_le. done.
Qed.

(** C4 - [filterByDateRange] returns exactly the rows of the table whose date
    lies in [[s, e]], both ends included, in table order; rows and index
    labels are sublists of the table's; filtering the result again with the
    same range returns the same table. *)
Theorem filterByDateRange_spec (s e : Z) (df : DataFrame) :
  records (filterByDateRange s e df) = filter (λ o, s ≤ date o ≤ e) (records df)
  ∧ (∀ o : Obs, o ∈ records (filterByDateRange s e df) ↔ o ∈ records df ∧ s ≤ date o ≤ e)
  ∧ records (filterByDateRange s e df) `sublist_of` records df
  ∧ index (filterByDateRange s e df) `sublist_of` index df
  ∧ filterByDateRange s e (filterByDateRange s e df) = filterByDateRange s e df.
Proof.
  split; [apply filterByDateRange_records|].
  split.
  { intros o. rewrite filterByDateRange_records, list_elem_of_filter. naive_solver. }
  split; [apply mask_select_sublist|].
  split; [apply mask_select_sublist|].
  apply getitem_mask_idemp.
Qed.

(** ** Group-by sums *)

Section groupby.
Context {K : Type} `{KeyOrderLaws K} `{EqDecision K}.

Lemma group_rows_perm {V} (k : K) (kv kv' : list (K * V)) :
  kv ≡ₚ kv' → group_rows k kv ≡ₚ group_rows k kv'.
Proof. intros Hp. unfold group_rows. by rewrite Hp. Qed.

Lemma group_rows_map {R V} (key : R → K) (val : R → V) (k : K) (rs : list R) :
  group_rows k (map (λ r, (key r, val r)) rs) = map val (filter (λ r, key r = k) rs).
Proof.
  unfold group_rows. induction rs as [|r rs IH]; simpl; [done|].
  rewrite !filter_cons; simpl. destruct (decide (key r = k)) as [->|Hne].
  - rewrite decide_True by by apply key_eqb_eq. simpl. by f_equal.
  - rewrite decide_False by by rewrite key_eqb_eq. done.
Qed.

Lemma groupby_sum_keys (kv : list (K * Z)) :
  map fst (groupby_sum kv) = group_keys (map fst kv).
Proof. unfold groupby_sum. rewrite map_map. simpl. apply map_id. Qed.

Lemma elem_of_groupby_sum (kv : list (K * Z)) (k : K) (t : Z) :
  (k, t) ∈ groupby_sum kv ↔ k ∈ map fst kv ∧ t = int64_sum (group_rows k kv).
Proof.
  unfold groupby_sum. rewrite list_elem_of_fmap.
  setoid_rewrite elem_of_group_keys. naive_solver.
Qed.

Lemma groupby_sum_perm (kv kv' : list (K * Z)) :
  kv ≡ₚ kv' → groupby_sum kv = groupby_sum kv'.
Proof.
  intros Hp. unfold groupby_sum.
  rewrite (group_keys_perm (map fst kv) (map fst kv')) by by rewrite Hp.
  apply map_ext. intros k. f_equal.
  apply int64_sum_perm, group_rows_perm, Hp.
Qed.

Lemma groupby_sum3_perm (kv kv' : list (K * (Z * Z * Z))) :
  kv ≡ₚ kv' → groupby_sum3 kv = groupby_sum3 kv'.
Proof.
  intros Hp. unfold groupby_sum3.
  rewrite (group_keys_perm (map fst kv) (map fst kv')) by by rewrite Hp.
  apply map_ext. intros k. simpl.
  pose proof (group_rows_perm k kv kv' Hp) as Hg.
  f_equal. f_equal; [f_equal|]; apply int64_sum_perm; by rewrite Hg.
Qed.

Lemma groupby_sum_nil : groupby_sum (@nil (K * Z)) = [].
Proof. done. Qed.

Lemma groupby_sum_float_keys (kv : list (K * option Z)) :
  map fst (groupby_sum_float kv) = group_keys (map fst kv).
Proof. unfold groupby_sum_float. rewrite map_map. simpl. apply map_id. Qed.


End groupby.

Lemma Z_key_lt (x y : Z) : key_lt x y ↔ x < y.
Proof. done. Qed.

Lemma sumByDate_dates (m : Metric) (df : DataFrame) :
  map fst (sumByDate m df) = group_keys (map date (records df)).
Proof. unfold sumByDate. by rewrite groupby_sum_keys, map_map. Qed.

(** C7 - [sumByDate] returns one (date, total) pair per distinct date of the
    table, in ascending date order; a date with no row has no pair.  The
    total of a date is the 64-bit sum of the metric over all rows carrying
    that date, whatever their entity: the int64 congruent modulo 2^64 to
    the exact sum, and so the exact sum whenever that is an int64. *)
Theorem sumByDate_spec (m : Metric) (df : DataFrame) :
  StronglySorted Z.lt (map fst (sumByDate m df))
  ∧ NoDup (map fst (sumByDate m df))
  ∧ (∀ d : Z, d ∈ map fst (sumByDate m df) ↔ ∃ o, o ∈ records df ∧ date o = d)
  ∧ (∀ (d t : Z), (d, t) ∈ sumByDate m df ↔
       (∃ o, o ∈ records df ∧ date o = d)
       ∧ - 2 ^ 63 ≤ t < 2 ^ 63
       ∧ (t - foldr Z.add 0 (map (metric_of m) (filter (λ o, date o = d) (records df))))
           mod 2 ^ 64 = 0)
  ∧ (∀ (d t : Z), (d, t) ∈ sumByDate m df →
       - 2 ^ 63 ≤ foldr Z.add 0 (map (metric_of m) (filter (λ o, date o = d) (records df)))
         < 2 ^ 63 →
       t = foldr Z.add 0 (map (metric_of m) (filter (λ o, date o = d) (records df)))).
Proof.
  assert (∀ d : Z, d ∈ map date (records df) ↔ ∃ o, o ∈ records df ∧ date o = d) as Hd.
  { intros d. rewrite list_elem_of_fmap. naive_solver. }
  assert (∀ d t : Z, (d, t) ∈ sumByDate m df ↔
            (∃ o, o ∈ records df ∧ date o = d)
            ∧ t = int64_sum (map (metric_of m) (filter (λ o, date o = d) (records df))))
    as Hsum.
  { intros d t. unfold sumByDate. rewrite elem_of_groupby_sum, map_map; simpl.
    rewrite (group_rows_map date (metric_of m)), Hd. done. }
  rewrite sumByDate_dates. split; [|split; [|split; [|split]]].
  - apply (group_keys_sorted (K:=Z)).
  - apply group_keys_NoDup.
  - intros d. by rewrite elem_of_group_keys.
  - intros d t. rewrite Hsum. split.
    + intros [Ho ->]. split; [done|].
      pose proof (int64_sum_spec
                    (map (metric_of m) (filter (λ o, date o = d) (records df)))) as Hs.
      cbv zeta in Hs. tauto.
    + intros (Ho & Hr & Hmod). split; [done|].
      rewrite int64_sum_wrap. by apply int64_unique.
  - intros d t Hin Hb. apply Hsum in Hin as [_ ->].
    by apply int64_sum_spec.
Qed.

(** The daily totals of line 152 are built the same way from the assigned
    column: the dates of the output are the distinct dates of the table. *)
Lemma sumByDate_derived_dates (name : string) (df : DataFrame) (col : list (option Z))
    (out : list (Z * Z)) :
  getitem_derived name df = Ok col → length col = length (records df) →
  sumByDate_derived name df = Ok out →
  map fst out = group_keys (map date (records df)).
Proof.
  unfold sumByDate_derived. intros -> Hlen [= <-].
  rewrite groupby_sum_float_keys, fst_zip; [done|]. rewrite !length_map. lia.
Qed.

(** C6 - [sumByDate] and [sumByEntity] do not depend on the order of the rows:
    two tables whose rows are a permutation of each other give the same
    totals per date and the same totals per entity. *)
Theorem sums_row_order_invariant (m : Metric) (df df' : DataFrame) :
  records df ≡ₚ records df' →
  sumByDate m df = sumByDate m df' ∧ sumByEntity df = sumByEntity df'.
Proof.
  intros Hp. split.
  - apply groupby_sum_perm. by rewrite Hp.
  - apply groupby_sum3_perm. by rewrite Hp.
Qed.

Lemma sums_row_order_invariant_witness :
  records example_table ≡ₚ records (from_records (reverse (records example_table)))
  ∧ sumByDate cases example_table
    = sumByDate cases (from_records (reverse (records example_table)))
  ∧ sumByEntity example_table
    = sumByEntity (from_records (reverse (records example_table))).
Proof.
  split; [symmetry; apply reverse_Permutation|].
  apply (sums_row_order_invariant cases example_table).
  symmetry. apply reverse_Permutation.
Defined.

(** A total past the int64 range comes back wrapped. *)
Example sumByDate_wraps :
  sumByDate cases (from_records [ob 1 "A" (2 ^ 63 - 1); ob 1 "B" 1]) = [(1, - 2 ^ 63)].
Proof. by vm_compute. Qed.

(** ** Ranking *)

Lemma filter_none {A} (P : A → Prop) `{∀ x, Decision (P x)} (l : list A) :
  (∀ x, x ∈ l → ¬ P x) → filter P l = [].
Proof.
  induction l as [|x l IH]; intros Hl; [done|].
  rewrite filter_cons, decide_False by (apply Hl; left).
  apply IH. intros y Hy. apply Hl. by right.
Qed.

Lemma rows_at_records (D : Z) (df : DataFrame) :
  records (rows_at (Some D) df) = filter (λ o, date o = D) (records df).
Proof.
  unfold rows_at. rewrite getitem_mask_records.
  apply list_filter_iff. intros o. rewrite bool_decide_eq_true. naive_solver.
Qed.


Lemma elem_of_sum_per_country (m : Metric) (df : DataFrame) (e : string) (v : Z) :
  (e, v) ∈ sum_per_country m df ↔
    (∃ o, o ∈ records df ∧ Country_Region o = e)
    ∧ v = int64_sum (map (metric_of m)
                         (filter (λ o, Country_Region o = e) (records df))).
Proof.
  unfold sum_per_country. rewrite elem_of_groupby_sum, map_map; simpl.
  rewrite (group_rows_map Country_Region (metric_of m)).
  change (map (λ o, Country_Region o) (records df)) with (Country_Region <$> records df).
  rewrite list_elem_of_fmap. naive_solver.
Qed.

Lemma sum_per_country_NoDup (m : Metric) (df : DataFrame) :
  NoDup (map fst (sum_per_country m df)).
Proof. unfold sum_per_country. rewrite groupby_sum_keys. apply group_keys_NoDup. Qed.

(** The ranking does not see the order of the rows. *)
Lemma topN_row_order_invariant `{Quicksort} (D : Z) (m : Metric) (n : nat)
    (df df' : DataFrame) :
  records df ≡ₚ records df' → topN D m n df = topN D m n df'.
Proof.
  intros Hp. unfold topN, rank_countries. do 2 f_equal.
  unfold sum_per_country. apply groupby_sum_perm.
  rewrite !rows_at_records. by rewrite Hp.
Qed.

(** C3, amended - [topN] keeps the rows whose date is exactly [D], sums the
    metric per entity, sorts the totals descending and keeps the first [n]:
    the ranking holds one entry per entity that has a row at [D], with that
    entity's total, the 64-bit sum of the metric over the entity's rows at
    [D] (the int64 congruent modulo 2^64 to the exact sum, and the exact sum
    whenever that is an int64); the result has at most [n] entries, none
    for [n = 0] and none when no row has date [D].  The order among equal
    totals does not follow the input: the result is the same for every
    order of the rows. *)
Theorem topN_spec `{QuicksortSpec} (D : Z) (m : Metric) (n : nat) (df : DataFrame) :
  ∃ ranking : list (string * Z),
    topN D m n df = firstn n ranking
    ∧ NoDup (map fst ranking)
    ∧ (∀ (e : string) (v : Z), (e, v) ∈ ranking ↔
         (∃ o, o ∈ records df ∧ date o = D ∧ Country_Region o = e)
         ∧ - 2 ^ 63 ≤ v < 2 ^ 63
         ∧ (v - foldr Z.add 0
                  (map (metric_of m)
                       (filter (λ o, Country_Region o = e)
                               (filter (λ o, date o = D) (records df)))))
             mod 2 ^ 64 = 0)
    ∧ (∀ (e : string) (v : Z), (e, v) ∈ ranking →
         - 2 ^ 63 ≤ foldr Z.add 0
                      (map (metric_of m)
                           (filter (λ o, Country_Region o = e)
                                   (filter (λ o, date o = D) (records df))))
           < 2 ^ 63 →
         v = foldr Z.add 0
               (map (metric_of m)
                    (filter (λ o, Country_Region o = e)
                            (filter (λ o, date o = D) (records df)))))
    ∧ Sorted (flip Z.le) (map snd ranking)
    ∧ (length (topN D m n df) ≤ n)%nat
    ∧ topN D m 0 df = []
    ∧ ((∀ o, o ∈ records df → date o ≠ D) → topN D m n df = [])
    ∧ (∀ df' : DataFrame, records df ≡ₚ records df' → topN D m n df' = topN D m n df).
Proof.
  exists (sort_values_desc (sum_per_country m (rows_at (Some D) df))).
  pose proof (sort_values_desc_perm (sum_per_country m (rows_at (Some D) df))) as Hp.
  assert (∀ (e : string) (v : Z),
            (e, v) ∈ sort_values_desc (sum_per_country m (rows_at (Some D) df)) ↔
            (∃ o, o ∈ records df ∧ date o = D ∧ Country_Region o = e)
            ∧ v = int64_sum (map (metric_of m)
                    (filter (λ o, Country_Region o = e)
                            (filter (λ o, date o = D) (records df))))) as Hsum.
  { intros e v. rewrite Hp, elem_of_sum_per_country, rows_at_records.
    setoid_rewrite list_elem_of_filter. naive_solver. }
  split; [done|]. split; [|split; [|split; [|split; [|split; [|split; [|split]]]]]].
  - change (map fst) with (fmap (M:=list) (@fst string Z)). rewrite Hp.
    apply sum_per_country_NoDup.
  - intros e v. rewrite Hsum. split.
    + intros [Ho ->]. split; [done|].
      pose proof (int64_sum_spec
                    (map (metric_of m)
                         (filter (λ o, Country_Region o = e)
                                 (filter (λ o, date o = D) (records df))))) as Hs.
      cbv zeta in Hs. tauto.
    + intros (Ho & Hr & Hmod). split; [done|].
      rewrite int64_sum_wrap. by apply int64_unique.
  - intros e v Hin Hb. apply Hsum in Hin as [_ ->]. by apply int64_sum_spec.
  - apply sort_values_desc_sorted.
  - unfold topN, rank_countries, head_n. rewrite length_take. lia.
  - done.
  - intros Hnone. unfold topN, rank_countries, head_n.
    assert (records (rows_at (Some D) df) = []) as Hrec.
    { rewrite rows_at_records. by apply filter_none. }
    assert (sum_per_country m (rows_at (Some D) df) = []) as Hs.
    { unfold sum_per_country. by rewrite Hrec. }
    rewrite Hs in Hp |- *. apply Permutation_nil_r in Hp.
    rewrite Hp. by destruct n.
  - intros df' Hdf'. symmetry. by apply topN_row_order_invariant.
Qed.

(** Whatever the sort does on ties, it cannot follow the input order: the two
    row orders of a tie rank alike, and the specified rankings differ. *)
Lemma topN_ties_any_quicksort `{Quicksort} :
  topN 7 cases 2 ties_C_B = topN 7 cases 2 ties_B_C
  ∧ topN_as_specified 7 cases 2 ties_C_B ≠ topN_as_specified 7 cases 2 ties_B_C.
Proof.
  split; [|by vm_compute].
  apply topN_row_order_invariant. apply Permutation_swap.
Qed.

Lemma topN_spec_witness :
  @QuicksortSpec insertion_argsort
  ∧ ∃ ranking : list (string * Z),
      topN 7 cases 3 example_ties = firstn 3 ranking
      ∧ NoDup (map fst ranking)
      ∧ (∀ (e : string) (v : Z), (e, v) ∈ ranking ↔
           (∃ o, o ∈ records example_ties ∧ date o = 7 ∧ Country_Region o = e)
           ∧ - 2 ^ 63 ≤ v < 2 ^ 63
           ∧ (v - foldr Z.add 0
                    (map (metric_of cases)
                         (filter (λ o, Country_Region o = e)
                                 (filter (λ o, date o = 7) (records example_ties)))))
               mod 2 ^ 64 = 0)
      ∧ (∀ (e : string) (v : Z), (e, v) ∈ ranking →
           - 2 ^ 63 ≤ foldr Z.add 0
                        (map (metric_of cases)
                             (filter (λ o, Country_Region o = e)
                                     (filter (λ o, date o = 7) (records example_ties))))
             < 2 ^ 63 →
           v = foldr Z.add 0
                 (map (metric_of cases)
                      (filter (λ o, Country_Region o = e)
                              (filter (λ o, date o = 7) (records example_ties)))))
      ∧ Sorted (flip Z.le) (map snd ranking)
      ∧ (length (topN 7 cases 3 example_ties) ≤ 3)%nat
      ∧ topN 7 cases 0 example_ties = []
      ∧ ((∀ o, o ∈ records example_ties → date o ≠ 7) → topN 7 cases 3 example_ties = [])
      ∧ (∀ df' : DataFrame, records example_ties ≡ₚ records df' →
           topN 7 cases 3 df' = topN 7 cases 3 example_ties).
Proof.
  split; [exact insertion_argsort_spec|].
  exact (topN_spec (H0:=insertion_argsort_spec) 7 cases 3 example_ties).
Defined.

(** C3, counterexample - on the specification's own example, entered as
    C, A, B, D, the code ranks the tied B before C (the group-by lists the
    entities in key order), where the input order has C first. *)
Lemma topN_ties_counterexample :
  topN (H:=insertion_argsort) 7 cases 3 example_ties = [("B", 80); ("C", 80); ("A", 50)]
  ∧ topN_as_specified 7 cases 3 example_ties = [("C", 80); ("B", 80); ("A", 50)]
  ∧ topN (H:=insertion_argsort) 7 cases 3 example_ties ≠ topN_as_specified 7 cases 3 example_ties.
Proof. by vm_compute. Qed.

(** ** Per-group differences *)

(** The rows of one group carry the differences of that group's values,
    starting from the value [last] remembers for the group. *)
Lemma groupby_diff_from_group {R} (key : R → string) (val : R → Z) (e : string)
    (last : gmap string Z) (rs : list R) :
  let out := zip rs (groupby_diff_from last (map (λ r, (key r, val r)) rs)) in
  map fst (filter (λ p, key p.1 = e) out) = filter (λ r, key r = e) rs
  ∧ map snd (filter (λ p, key p.1 = e) out) =
      match last !! e with
      | Some p => tail (diff_by groupby_sub (p :: map val (filter (λ r, key r = e) rs)))
      | None => diff_by groupby_sub (map val (filter (λ r, key r = e) rs))
      end.
Proof.
  revert last. induction rs as [|r rs IH]; intros last; simpl.
  { split; [done|]. by destruct (last !! e). }
  destruct (IH (<[key r := val r]> last)) as [IH1 IH2]. clear IH.
  rewrite !filter_cons; simpl. destruct (decide (key r = e)) as [<-|Hne].
  - rewrite lookup_insert_eq in IH2. cbn [map fst snd].
    rewrite IH1, IH2. split; [done|].
    by destruct (last !! key r) as [p|].
  - by rewrite lookup_insert_ne in IH2.
Qed.

Lemma filter_zip_fmap_r {A B C} (P : A → Prop) `{∀ x, Decision (P x)} (f : B → C)
    (l : list A) (k : list B) :
  filter (λ p, P p.1) (zip l (map f k))
  = map (λ p, (p.1, f p.2)) (filter (λ p, P p.1) (zip l k)).
Proof.
  revert k. induction l as [|x l IH]; intros [|y k]; simpl; try done.
  rewrite !filter_cons; simpl. destruct (decide (P x)); simpl; by rewrite IH.
Qed.

(** The daily Series of a frame, read group by group: each entity's rows, in
    frame order, carry the differences of that entity's values, 0 in front. *)
Lemma daily_series_group (m : Metric) (e : string) (df : DataFrame) :
  let rows_e := filter (λ p, Country_Region p.1 = e)
                       (zip (records df) (s_values (daily_series m df))) in
  map fst rows_e = filter (λ o, Country_Region o = e) (records df)
  ∧ map snd rows_e
    = fillna 0 (diff_by groupby_sub (map (λ p, metric_of m p.1) rows_e)).
Proof.
  cbv zeta. unfold daily_series, fillna; cbn [s_values].
  pose proof (filter_zip_fmap_r (λ o, Country_Region o = e)
                (λ o : option Z, Some (default 0 o)) (records df)
                (groupby_diff (map (λ o, (Country_Region o, metric_of m o)) (records df))))
    as E.
  simpl in E. rewrite E. clear E.
  destruct (groupby_diff_from_group Country_Region (metric_of m) e ∅ (records df))
    as [H1 H2].
  rewrite lookup_empty in H2. unfold groupby_diff.
  rewrite !map_map; simpl. split; [done|].
  rewrite <-(map_map snd (λ o, Some (default 0 o))), H2.
  by rewrite <-(map_map fst (metric_of m)), H1.
Qed.

(** Rows that carry the filled differences of their own values, read by
    position: 0 on the first, the difference to the row before on the others. *)
Lemma fillna_diff_by_lookup {A} (sub : Z → Z → Z) (val : A → Z)
    (rows : list (A * option Z)) :
  map snd rows = fillna 0 (diff_by sub (map (λ p, val p.1) rows)) →
  (∀ (o : A) (d : option Z), rows !! 0%nat = Some (o, d) → d = Some 0)
  ∧ (∀ (i : nat) (o o' : A) (d d' : option Z),
       rows !! i = Some (o, d) → rows !! S i = Some (o', d') →
       d' = Some (sub (val o') (val o))).
Proof.
  intros Hsnd. split.
  - intros o d Hr.
    assert (map snd rows !! 0%nat = Some d) as Hd.
    { change (map snd rows) with (snd <$> rows). by rewrite list_lookup_fmap, Hr. }
    rewrite Hsnd in Hd. destruct rows as [|[o1 d1] rows]; [done|].
    cbn in Hd. congruence.
  - intros i o o' d d' Hr Hr'.
    assert (map snd rows !! S i = Some d') as Hd.
    { change (map snd rows) with (snd <$> rows). by rewrite list_lookup_fmap, Hr'. }
    rewrite Hsnd in Hd. unfold fillna in Hd.
    change (map ?f ?l) with (f <$> l) in Hd.
    rewrite list_lookup_fmap, diff_by_lookup_S, !list_lookup_fmap, Hr, Hr' in Hd.
    cbn in Hd. congruence.
Qed.

(** ** Alignment on the index *)

Lemma groupby_diff_from_length (last : gmap string Z) (kv : list (string * Z)) :
  length (groupby_diff_from last kv) = length kv.
Proof.
  revert last. induction kv as [|[k v] kv IH]; intros last; simpl; [done|].
  by rewrite IH.
Qed.

Lemma daily_series_length (m : Metric) (df : DataFrame) :
  length (s_values (daily_series m df)) = length (records df).
Proof.
  unfold daily_series, fillna, groupby_diff; simpl.
  by rewrite length_map, groupby_diff_from_length, length_map.
Qed.

(** In a Series with unique labels, the label at position [j] leads to the
    value at position [j]. *)
Lemma series_by_label (s : Series) (j l : nat) (v : option Z) :
  NoDup (s_index s) → length (s_index s) = length (s_values s) →
  s_index s !! j = Some l → s_values s !! j = Some v →
  (list_to_map (zip (s_index s) (s_values s)) : gmap nat (option Z)) !! l = Some v.
Proof.
  intros Hnd Hlen Hl Hv. apply elem_of_list_to_map_1.
  - rewrite fst_zip by lia. done.
  - apply list_elem_of_lookup. exists j. apply lookup_zip_with_Some. eauto.
Qed.

Lemma reindex_length (s : Series) (target : list nat) :
  length (reindex s target) = length target.
Proof. unfold reindex. by rewrite length_map. Qed.

Lemma reindex_self (s : Series) :
  NoDup (s_index s) → length (s_index s) = length (s_values s) →
  reindex s (s_index s) = s_values s.
Proof.
  intros Hnd Hlen. apply list_eq. intros j. unfold reindex.
  change (map ?f ?l) with (f <$> l). rewrite list_lookup_fmap.
  destruct (s_index s !! j) as [l|] eqn:Hl; simpl.
  - destruct (lookup_lt_is_Some_2 (s_values s) j) as [v Hv].
    { rewrite <-Hlen. by eapply lookup_lt_Some. }
    by rewrite (series_by_label s j l v), Hv.
  - symmetry. apply lookup_ge_None. rewrite <-Hlen. by apply lookup_ge_None.
Qed.

Lemma reindex_for_setitem_unique (s : Series) (target : list nat) :
  NoDup (s_index s) → length (s_index s) = length (s_values s) →
  reindex_for_setitem s target = Ok (reindex s target).
Proof.
  intros Hnd Hlen. unfold reindex_for_setitem.
  destruct (decide (s_index s = target)) as [<-|_].
  - by rewrite reindex_self.
  - by rewrite decide_True.
Qed.

(** A column written by alignment on the labels of a permuted copy, read
    back in the permuted order, is the Series that was written. *)
Lemma take_pos_reindex (idx ix : list nat) (vals : list (option Z)) :
  NoDup idx → ix ≡ₚ seq 0 (length idx) → length vals = length idx →
  take_pos ix (reindex (mkSeries (take_pos ix idx) vals) idx) = vals.
Proof.
  intros Hnd Hix Hlen.
  assert (Forall (λ i, (i < length idx)%nat) ix) as Hrange
    by by apply perm_seq_in_range.
  assert (length ix = length idx) as Hlix by by rewrite Hix, length_seq.
  set (s := mkSeries (take_pos ix idx) vals).
  assert (NoDup (s_index s)) as Hnds by (simpl; by rewrite take_pos_perm).
  assert (length (s_index s) = length (s_values s)) as Hlens.
  { simpl. rewrite take_pos_length by done. lia. }
  apply list_eq. intros j. rewrite take_pos_lookup
    by by rewrite reindex_length.
  destruct (ix !! j) as [i|] eqn:Hi; simpl.
  - destruct (lookup_lt_is_Some_2 idx i) as [l Hl].
    { eapply Forall_forall in Hrange; [done|]. by eapply list_elem_of_lookup_2. }
    destruct (lookup_lt_is_Some_2 vals j) as [v Hv].
    { rewrite Hlen, <-Hlix. by eapply lookup_lt_Some. }
    unfold reindex. change (map ?f ?l) with (f <$> l).
    rewrite list_lookup_fmap, Hl.
    assert (s_index s !! j = Some l) as Hjl.
    { simpl. by rewrite take_pos_lookup, Hi. }
    pose proof (series_by_label s j l v Hnds Hlens Hjl Hv) as Hbl.
    subst s. simpl in *. by rewrite Hbl, Hv.
  - symmetry. apply lookup_ge_None. rewrite Hlen, <-Hlix. by apply lookup_ge_None.
Qed.

(** In a frame sorted by (entity, date), the rows of one entity are in date order. *)
Lemma sorted_group_dates (e : string) (rs : list Obs) :
  StronglySorted key_le (map (λ o, (Country_Region o, date o)) rs) →
  Sorted Z.le (map date (filter (λ o, Country_Region o = e) rs)).
Proof.
  intros Hs. apply StronglySorted_Sorted.
  induction rs as [|o rs IH]; [constructor|].
  cbn [map] in Hs. apply StronglySorted_cons in Hs as [Ho Hs].
  rewrite filter_cons. case_decide as He; [|by apply IH].
  cbn [map]. constructor; [by apply IH|].
  apply Forall_forall. intros d Hd.
  change (map date ?l) with (date <$> l) in Hd.
  apply list_elem_of_fmap in Hd as (o' & -> & Ho').
  apply list_elem_of_filter in Ho' as [He' Ho'].
  eapply Forall_forall in Ho;
    [|apply (list_elem_of_fmap_2 (λ o, (Country_Region o, date o))), Ho'].
  unfold key_le, key_cmp, prod_KeyOrder in Ho; simpl in Ho.
  rewrite He, He', key_cmp_refl in Ho.
  unfold key_cmp, Z_KeyOrder in Ho. by apply Z.compare_le_iff.
Qed.

Lemma sort_values_country_date_records (df : DataFrame) :
  records (sort_values_country_date df)
  = take_pos (lexsort_indexer (map (λ o, (Country_Region o, date o)) (records df)))
             (records df).
Proof. done. Qed.

(** ** The daily column *)

(** What [dailyDelta] writes, on a frame with unique labels: the Series of the
    sorted copy, aligned back on the frame's own labels. *)
Lemma dailyDelta_unique_index (m : Metric) (df : DataFrame) :
  unique_index df →
  let ix := lexsort_indexer (map (λ o, (Country_Region o, date o)) (records df)) in
  let col := reindex (daily_series m (sort_values_country_date df)) (index df) in
  dailyDelta m df
    = Ok (mkFrame (index df) (records df)
                  (set_column ("daily_" +:+ metric_name m) col (derived df)))
  ∧ length col = length (records df)
  ∧ take_pos ix col = s_values (daily_series m (sort_values_country_date df)).
Proof.
  intros [Hnd Hlen] ix col.
  assert (ix ≡ₚ seq 0 (length (index df))) as Hix.
  { subst ix. by rewrite lexsort_indexer_perm, length_map, Hlen. }
  assert (Forall (λ i, (i < length (records df))%nat) ix) as Hrange.
  { rewrite <-Hlen. by apply perm_seq_in_range. }
  assert (length (s_values (daily_series m (sort_values_country_date df)))
          = length (index df)) as Hlv.
  { rewrite daily_series_length, sort_values_country_date_records.
    fold ix. rewrite take_pos_length by done. by rewrite Hix, length_seq. }
  split; [|split].
  - unfold dailyDelta, setitem. rewrite reindex_for_setitem_unique; [done| |].
    + simpl. fold ix. by rewrite take_pos_perm.
    + rewrite Hlv. simpl. fold ix. rewrite take_pos_length; [|by rewrite Hlen].
      by rewrite Hix, length_seq.
  - subst col. by rewrite reindex_length.
  - subst col. unfold daily_series at 1. cbn [index sort_values_country_date take_rows].
    fold ix. by apply take_pos_reindex.
Qed.

(** A column just assigned reads back as assigned. *)
Lemma getitem_derived_set_column {R} (name : string) (col : list (option Z))
    (idx : list nat) (rs : list R) (cols : list (string * list (option Z))) :
  getitem_derived name (mkFrame idx rs (set_column name col cols)) = Ok col.
Proof.
  unfold getitem_derived; cbn [derived].
  induction cols as [|[n c] cols IH]; cbn [set_column].
  - cbn [list_find]. by rewrite decide_True.
  - cbn [fst]. destruct (decide (n = name)) as [->|Hne]; cbn [list_find fst].
    + by rewrite decide_True.
    + rewrite decide_False by done.
      destruct (list_find _ (set_column name col cols)) as [[i [n' c']]|]; [|done].
      by cbn in *.
Qed.

(** C1 - [dailyDelta] returns the table's index and rows in their original
    order with the column [daily_<metric>], one entry per row, which reads
    back as follows.  Internally the rows are sorted by (entity, date)
    ascending, rows of equal entity and date staying in table order; read
    in that order and partitioned by entity, each entity's
    rows are in date order, the first carries 0 and every later one
    [value[i] - value[i-1]], for values and differences that a float64 holds
    exactly (at most 2^53 in size: the column is float64). *)
Theorem dailyDelta_spec (m : Metric) (df : DataFrame) :
  unique_index df →
  ∃ (df' : DataFrame) (col : list (option Z)),
    dailyDelta m df = Ok df'
    ∧ index df' = index df
    ∧ records df' = records df
    ∧ getitem_derived ("daily_" +:+ metric_name m) df' = Ok col
    ∧ length col = length (records df)
    ∧ ∃ ix : list nat,
        ix ≡ₚ seq 0 (length (records df))
        ∧ StronglySorted key_le
            (map (λ o, (Country_Region o, date o)) (take_pos ix (records df)))
        ∧ (∀ (j k i i' : nat) (o o' : Obs),
             (j < k)%nat → ix !! j = Some i → ix !! k = Some i' →
             records df !! i = Some o → records df !! i' = Some o' →
             Country_Region o = Country_Region o' → date o = date o' →
             (i < i')%nat)
        ∧ ∀ e : string,
            ∃ rows_e : list (Obs * option Z),
              rows_e = filter (λ p, Country_Region p.1 = e)
                              (zip (take_pos ix (records df)) (take_pos ix col))
              ∧ map fst rows_e ≡ₚ filter (λ o, Country_Region o = e) (records df)
              ∧ Sorted Z.le (map (λ p, date p.1) rows_e)
              ∧ (∀ (o : Obs) (d : option Z), rows_e !! 0%nat = Some (o, d) → d = Some 0)
              ∧ (∀ (i : nat) (o o' : Obs) (d d' : option Z),
                   rows_e !! i = Some (o, d) → rows_e !! S i = Some (o', d') →
                   - 2 ^ 53 ≤ metric_of m o ≤ 2 ^ 53 →
                   - 2 ^ 53 ≤ metric_of m o' ≤ 2 ^ 53 →
                   - 2 ^ 53 ≤ metric_of m o' - metric_of m o ≤ 2 ^ 53 →
                   d' = Some (metric_of m o' - metric_of m o)).
Proof.
  intros Hwf. destruct (dailyDelta_unique_index m df Hwf) as (Hd & Hlen & Htake).
  destruct Hwf as [Hnd Hli].
  eexists _, _. split; [exact Hd|]. split; [done|]. split; [done|].
  split; [apply getitem_derived_set_column|]. split; [exact Hlen|].
  set (keys := map (λ o, (Country_Region o, date o)) (records df)) in *.
  exists (lexsort_indexer keys).
  assert (lexsort_indexer keys ≡ₚ seq 0 (length (records df))) as Hix.
  { subst keys. by rewrite lexsort_indexer_perm, length_map. }
  assert (StronglySorted key_le
            (map (λ o, (Country_Region o, date o))
                 (take_pos (lexsort_indexer keys) (records df)))) as Hsorted.
  { rewrite <-take_pos_fmap. apply lexsort_indexer_sorted. }
  split; [done|]. split; [done|]. split.
  { intros j k i i' o o' Hjk Hj Hk Ho Ho' Hc Hdate.
    apply (lexsort_indexer_stable keys j k i i' Hjk Hj Hk).
    subst keys. change (map ?f ?l) with (f <$> l).
    by rewrite !list_lookup_fmap, Ho, Ho'; simpl; rewrite Hc, Hdate. }
  intros e. eexists. split; [reflexivity|].
  rewrite Htake.
  destruct (daily_series_group m e (sort_values_country_date df)) as [Hfst Hsnd].
  rewrite sort_values_country_date_records in Hfst, Hsnd. fold keys in Hfst, Hsnd.
  destruct (fillna_diff_by_lookup groupby_sub (metric_of m) _ Hsnd) as [Hfirst Hlater].
  split; [|split; [|split]].
  - rewrite Hfst. f_equiv. by apply take_pos_perm.
  - rewrite <-(map_map fst date), Hfst. by apply sorted_group_dates.
  - exact Hfirst.
  - intros i o o' d d' Hr Hr' Ho Ho' Hdiff.
    rewrite (Hlater i o o' d d' Hr Hr'). f_equal. by apply groupby_sub_exact.
Qed.

Lemma from_records_unique_index {R} (rows : list R) : unique_index (from_records rows).
Proof. split; simpl; [apply NoDup_seq|by rewrite length_seq]. Qed.

Lemma dailyDelta_spec_witness :
  unique_index example_table
  ∧ ∃ (df' : DataFrame) (col : list (option Z)),
      dailyDelta cases example_table = Ok df'
      ∧ index df' = index example_table
      ∧ records df' = records example_table
      ∧ getitem_derived ("daily_" +:+ metric_name cases) df' = Ok col
      ∧ length col = length (records example_table)
      ∧ ∃ ix : list nat,
          ix ≡ₚ seq 0 (length (records example_table))
          ∧ StronglySorted key_le
              (map (λ o, (Country_Region o, date o))
                   (take_pos ix (records example_table)))
          ∧ (∀ (j k i i' : nat) (o o' : Obs),
               (j < k)%nat → ix !! j = Some i → ix !! k = Some i' →
               records example_table !! i = Some o →
               records example_table !! i' = Some o' →
               Country_Region o = Country_Region o' → date o = date o' →
               (i < i')%nat)
          ∧ ∀ e : string,
              ∃ rows_e : list (Obs * option Z),
                rows_e = filter (λ p, Country_Region p.1 = e)
                                (zip (take_pos ix (records example_table))
                                     (take_pos ix col))
                ∧ map fst rows_e
                    ≡ₚ filter (λ o, Country_Region o = e) (records example_table)
                ∧ Sorted Z.le (map (λ p, date p.1) rows_e)
                ∧ (∀ (o : Obs) (d : option Z),
                     rows_e !! 0%nat = Some (o, d) → d = Some 0)
                ∧ (∀ (i : nat) (o o' : Obs) (d d' : option Z),
                     rows_e !! i = Some (o, d) → rows_e !! S i = Some (o', d') →
                     - 2 ^ 53 ≤ metric_of cases o ≤ 2 ^ 53 →
                     - 2 ^ 53 ≤ metric_of cases o' ≤ 2 ^ 53 →
                     - 2 ^ 53 ≤ metric_of cases o' - metric_of cases o ≤ 2 ^ 53 →
                     d' = Some (metric_of cases o' - metric_of cases o)).
Proof.
  split; [apply from_records_unique_index|].
  apply (dailyDelta_spec cases example_table), from_records_unique_index.
Defined.

(** The specification's example: one entity, two dates, values 100 then 130. *)
Example dailyDelta_two_dates :
  dailyDelta cases (from_records [ob 1 "A" 100; ob 2 "A" 130])
  = Ok (mkFrame [0; 1]%nat [ob 1 "A" 100; ob 2 "A" 130]
                [("daily_cases", [Some 0; Some 30])]).
Proof. by vm_compute. Qed.

(** A label carried by two rows: the sorted copy has another label order, the
    alignment has no unique source, and pandas raises. *)
Example dailyDelta_duplicate_labels :
  dailyDelta cases (mkFrame [0; 1; 0]%nat [ob 2 "B" 130; ob 1 "A" 5; ob 1 "B" 100] [])
  = Raise (ValueError "cannot reindex on an axis with duplicate labels").
Proof. by vm_compute. Qed.

(** A difference past 2^53 is stored rounded. *)
Example dailyDelta_rounds :
  dailyDelta cases (from_records [ob 1 "A" 0; ob 2 "A" (2 ^ 53 + 1)])
  = Ok (mkFrame [0; 1]%nat [ob 1 "A" 0; ob 2 "A" (2 ^ 53 + 1)]
                [("daily_cases", [Some 0; Some (2 ^ 53)])]).
Proof. by vm_compute. Qed.

(** Rows out of order: the deltas follow the rows, not the sorted order. *)
Example dailyDelta_example_table :
  dailyDelta cases example_table
  = Ok (mkFrame (index example_table) (records example_table)
                [("daily_cases", [Some 30; Some 0; Some 0; Some (-5); Some 4])]).
Proof. by vm_compute. Qed.

(** ** Overwriting a column *)

Lemma set_column_names (name : string) (col : list (option Z))
    (cols : list (string * list (option Z))) :
  map fst (set_column name col cols)
  = if decide (name ∈ map fst cols) then map fst cols else map fst cols ++ [name].
Proof.
  induction cols as [|[n c] cols IH]; cbn [set_column map fst].
  - case_decide as Hin; [|done]. by apply elem_of_nil in Hin.
  - destruct (decide (n = name)) as [->|Hne]; cbn [map fst].
    + by rewrite decide_True by left.
    + rewrite IH. destruct (decide (name ∈ map fst cols)) as [Hin|Hnin].
      * by rewrite decide_True by by right.
      * rewrite decide_False; [done|]. rewrite elem_of_cons. naive_solver.
Qed.

Lemma set_column_elem (name : string) (col : list (option Z))
    (cols : list (string * list (option Z))) :
  (name, col) ∈ set_column name col cols.
Proof.
  induction cols as [|[n c] cols IH]; simpl; [by left|].
  destruct (decide (n = name)); [by left|by right].
Qed.

Lemma set_column_twice (name : string) (col col' : list (option Z))
    (cols : list (string * list (option Z))) :
  set_column name col (set_column name col' cols) = set_column name col cols.
Proof.
  induction cols as [|[n c] cols IH]; simpl.
  - by rewrite decide_True.
  - destruct (decide (n = name)) as [->|Hne]; simpl.
    + by rewrite decide_True.
    + rewrite decide_False by done. by rewrite IH.
Qed.

(** The second application computes the column from the same base columns and
    writes it under the same name. *)
Lemma dailyDelta_again (m : Metric) (df df1 : DataFrame) :
  dailyDelta m df = Ok df1 → dailyDelta m df1 = Ok df1.
Proof.
  unfold dailyDelta, setitem.
  destruct (reindex_for_setitem _ (index df)) as [col|] eqn:E; [|done].
  intros [= <-]. cbn [index records derived].
  change (daily_series m (sort_values_country_date
            (mkFrame (index df) (records df) _)))
    with (daily_series m (sort_values_country_date df)).
  rewrite E. by rewrite set_column_twice.
Qed.

(** C5 - applying [dailyDelta] twice with the same metric writes the column
    [daily_<metric>] both times under the same name: the first application
    overwrites the column in place if the table has it and appends it
    otherwise, the second changes nothing. *)
Theorem dailyDelta_idempotent (m : Metric) (df : DataFrame) :
  unique_index df →
  ∃ df1 : DataFrame,
    dailyDelta m df = Ok df1
    ∧ dailyDelta m df1 = Ok df1
    ∧ map fst (derived df1)
      = (if decide ("daily_" +:+ metric_name m ∈ map fst (derived df))
         then map fst (derived df)
         else map fst (derived df) ++ ["daily_" +:+ metric_name m]).
Proof.
  intros Hwf. destruct (dailyDelta_unique_index m df Hwf) as (Hd & _ & _).
  eexists. split; [exact Hd|]. split; [exact (dailyDelta_again m df _ Hd)|].
  cbn [derived]. apply set_column_names.
Qed.

Lemma dailyDelta_idempotent_witness :
  unique_index example_table
  ∧ ∃ df1 : DataFrame,
      dailyDelta deaths example_table = Ok df1
      ∧ dailyDelta deaths df1 = Ok df1
      ∧ map fst (derived df1)
        = (if decide ("daily_" +:+ metric_name deaths ∈ map fst (derived example_table))
           then map fst (derived example_table)
           else map fst (derived example_table) ++ ["daily_" +:+ metric_name deaths]).
Proof.
  split; [apply from_records_unique_index|].
  apply (dailyDelta_idempotent deaths example_table), from_records_unique_index.
Defined.

(** A stale column of the same name is replaced where it stands. *)
Example dailyDelta_overwrites_stale :
  dailyDelta cases
    (mkFrame [0; 1]%nat [ob 1 "A" 100; ob 2 "A" 130]
             [("daily_cases", [Some 7; Some 7]); ("daily_deaths", [Some 0; Some 0])])
  = Ok (mkFrame [0; 1]%nat [ob 1 "A" 100; ob 2 "A" 130]
                [("daily_cases", [Some 0; Some 30]); ("daily_deaths", [Some 0; Some 0])]).
Proof. by vm_compute. Qed.

(** ** No operation raises *)

Lemma filterByDateRange_inverted (s e : Z) (df : DataFrame) :
  e < s →
  index (filterByDateRange s e df) = []
  ∧ records (filterByDateRange s e df) = []
  ∧ Forall (λ c, c.2 = []) (derived (filterByDateRange s e df)).
Proof.
  intros Hes.
  assert (∀ {A} (l : list A),
            mask_select (map (λ o, (date o >=? s) && (date o <=? e)) (records df)) l = [])
    as Hmask.
  { intros A. induction (records df) as [|o rs IH]; intros [|x l]; cbn; try done.
    replace ((date o >=? s) && (date o <=? e)) with false; [apply IH|].
    symmetry. apply andb_false_iff. rewrite Z.geb_leb, !Z.leb_gt. lia. }
  unfold filterByDateRange, getitem_mask; cbn [index records derived].
  rewrite !Hmask. split; [done|]. split; [done|].
  apply Forall_forall. intros [n c] Hc.
  change (map ?f ?l) with (f <$> l) in Hc.
  apply list_elem_of_fmap in Hc as ([n' c'] & [= -> ->] & _). apply Hmask.
Qed.

Lemma sort_values_desc_nil `{Quicksort} : sort_values_desc [] = [].
Proof.
  unfold sort_values_desc. induction (nargsort false (map snd [])) as [|i a IH]; [done|].
  by rewrite take_pos_cons.
Qed.

(** C8 - no operation of the engine raises.  On every table [dailyDelta]
    returns a table, and the daily totals read from it are defined; the
    other operations are functions that return a value on every input.  An
    inverted date range selects no row, and the totals of the empty
    selection are empty; on the empty table every operation returns its
    empty result. *)
Theorem aggregation_never_raises `{Quicksort} (rows : list Obs) (m : Metric)
    (s e D : Z) (n : nat) :
  (∃ (df' : DataFrame) (totals : list (Z * Z)),
      dailyDelta m (from_records rows) = Ok df'
      ∧ records df' = rows
      ∧ sumByDate_derived ("daily_" +:+ metric_name m) df' = Ok totals)
  ∧ (e < s →
       records (filterByDateRange s e (from_records rows)) = []
       ∧ sumByDate m (filterByDateRange s e (from_records rows)) = []
       ∧ sumByEntity (filterByDateRange s e (from_records rows)) = []
       ∧ topN D m n (filterByDateRange s e (from_records rows)) = [])
  ∧ records (filterByDateRange s e (from_records [])) = []
  ∧ sumByDate m (from_records []) = []
  ∧ sumByEntity (from_records []) = []
  ∧ topN D m n (from_records []) = []
  ∧ diffSeries [] = []
  ∧ dailyDelta m (from_records [])
    = Ok (mkFrame [] [] [("daily_" +:+ metric_name m, [])]).
Proof.
  assert (∀ df : DataFrame, records df = [] → topN D m n df = []) as Htop.
  { intros df Hdf. unfold topN, rank_countries.
    assert (sum_per_country m (rows_at (Some D) df) = []) as ->.
    { unfold sum_per_country. by rewrite rows_at_records, Hdf. }
    rewrite sort_values_desc_nil. by destruct n. }
  split; [|split; [|by repeat split; try apply Htop]].
  - destruct (dailyDelta_unique_index m (from_records rows)
                (from_records_unique_index rows)) as (Hd & Hlen & _).
    eexists _, _. split; [exact Hd|]. split; [done|].
    unfold sumByDate_derived. by rewrite getitem_derived_set_column.
  - intros Hes.
    destruct (filterByDateRange_inverted s e (from_records rows) Hes) as (_ & Hrec & _).
    split; [done|].
    unfold sumByDate, sumByEntity. rewrite Hrec. repeat split; by try apply Htop.
Qed.

Lemma aggregation_never_raises_witness :
  3 < 5
  ∧ records (filterByDateRange 5 3 example_table) = []
  ∧ sumByDate cases (filterByDateRange 5 3 example_table) = []
  ∧ sumByEntity (filterByDateRange 5 3 example_table) = []
  ∧ topN 2 cases 4 (filterByDateRange 5 3 example_table) = [].
Proof.
  split; [lia|].
  apply (aggregation_never_raises (records example_table) cases 5 3 2 4). lia.
Defined.

(** ** The script *)

(** C9 - every run of the script stops at line 6: after the four imports the
    name [os] is read and is not bound, so the run ends with a NameError
    before any table is loaded, any frame is built, the environment is
    written or a chart is shown. *)
Theorem app_raises_NameError `{Quicksort} (inp : Inputs) :
  app inp initial_state
  = (Raise (NameError "os"),
     mkState (<["px" := VModule "plotly.express"]>
               (<["pd" := VModule "pandas"]>
                 (<["cod" := VModule "covid19pandas"]>
                   (<["st" := VModule "streamlit"]> ∅))))
             ∅ ∅ [] []).
Proof. by vm_compute. Qed.

(** The imports bind no name [os], and no later statement is reached that could. *)
Lemma imports_leave_os_unbound :
  ∃ σ, imports initial_state = (Ok (), σ) ∧ namespace σ !! "os" = None
       ∧ heap σ = ∅ ∧ namespace σ !! "global_df" = None.
Proof. eexists. split; [reflexivity|]. by vm_compute. Qed.

(** The same from any state in which [os] is not bound: nothing but the four
    module names changes. *)
Lemma app_raises_without_os `{Quicksort} (inp : Inputs) (σ : State) :
  namespace σ !! "os" = None →
  ∃ σ' : State,
    app inp σ = (Raise (NameError "os"), σ')
    ∧ heap σ' = heap σ ∧ environ σ' = environ σ ∧ rendered σ' = rendered σ.
Proof.
  intros Hos. eexists.
  unfold app, imports, import_as, bind_name, modify, set_cache_dir, lookup_name.
  unfold mbind, Script_bind; cbn [namespace heap environ sidebar_errors rendered].
  rewrite !lookup_insert_ne by done. rewrite Hos. done.
Qed.

(** ** Running statements *)

Lemma wp_elim {A} (c : Script A) (Q : A → State → Prop) (σ : State) :
  wp c Q σ → ∃ a σ', c σ = (Ok a, σ') ∧ Q a σ'.
Proof. unfold wp. destruct (c σ) as [[a|e] σ']; [eauto|done]. Qed.

Lemma wp_mono {A} (c : Script A) (Q Q' : A → State → Prop) (σ : State) :
  (∀ a σ', Q a σ' → Q' a σ') → wp c Q σ → wp c Q' σ.
Proof. unfold wp. destruct (c σ) as [[a|e] σ']; [auto|done]. Qed.

Lemma wp_ret {A} (a : A) (Q : A → State → Prop) (σ : State) :
  Q a σ → wp (mret a) Q σ.
Proof. done. Qed.

Lemma wp_bind {A B} (c : Script A) (k : A → Script B) (Q : B → State → Prop) (σ : State) :
  wp c (λ a σ', wp (k a) Q σ') σ → wp (c ≫= k) Q σ.
Proof.
  unfold wp, mbind, Script_bind. by destruct (c σ) as [[a|e] σ'].
Qed.

Lemma wp_modify (f : State → State) (Q : unit → State → Prop) (σ : State) :
  Q () (f σ) → wp (modify f) Q σ.
Proof. done. Qed.

Lemma wp_lookup_name (x : string) (v : Value) (Q : Value → State → Prop) (σ : State) :
  namespace σ !! x = Some v → Q v σ → wp (lookup_name x) Q σ.
Proof. unfold wp, lookup_name. by intros ->. Qed.

Lemma wp_bind_name (x : string) (v : Value) (Q : unit → State → Prop) (σ : State) :
  Q () (mkState (<[x := v]> (namespace σ)) (heap σ) (environ σ)
                (sidebar_errors σ) (rendered σ)) →
  wp (bind_name x v) Q σ.
Proof. done. Qed.

(** A new object lands where nothing was. *)
Lemma wp_alloc (o : Object) (Q : Value → State → Prop) (σ : State) :
  (∀ l, heap σ !! l = None →
        Q (VRef l) (mkState (namespace σ) (<[l := o]> (heap σ)) (environ σ)
                            (sidebar_errors σ) (rendered σ))) →
  wp (alloc o) Q σ.
Proof.
  intros HQ. unfold wp, alloc. apply HQ.
  apply not_elem_of_dom, is_fresh.
Qed.

Lemma wp_store (l : loc) (o : Object) (Q : unit → State → Prop) (σ : State) :
  Q () (mkState (namespace σ) (<[l := o]> (heap σ)) (environ σ)
                (sidebar_errors σ) (rendered σ)) →
  wp (store l o) Q σ.
Proof. done. Qed.

Lemma wp_get_object (x : string) (l : loc) (o : Object) (Q : Object → State → Prop)
    (σ : State) :
  namespace σ !! x = Some (VRef l) → heap σ !! l = Some o →
  Q o σ → wp (get_object x) Q σ.
Proof.
  intros Hx Hl HQ. unfold wp, get_object, mbind, Script_bind, lookup_name, deref.
  by rewrite Hx, Hl.
Qed.

Lemma wp_get_frame (x : string) (l : loc) (df : DataFrame)
    (Q : loc * DataFrame → State → Prop) (σ : State) :
  namespace σ !! x = Some (VRef l) → heap σ !! l = Some (ODataFrame df) →
  Q (l, df) σ → wp (get_frame x) Q σ.
Proof.
  intros Hx Hl HQ. unfold wp, get_frame, mbind, Script_bind, lookup_name, deref.
  by rewrite Hx, Hl.
Qed.

Lemma wp_get_slice (x : string) (l : loc) (m : Metric) (f : Frame (Z * Z))
    (Q : loc * (Metric * Frame (Z * Z)) → State → Prop) (σ : State) :
  namespace σ !! x = Some (VRef l) → heap σ !! l = Some (OSlice m f) →
  Q (l, (m, f)) σ → wp (get_slice x) Q σ.
Proof.
  intros Hx Hl HQ. unfold wp, get_slice, mbind, Script_bind, lookup_name, deref.
  by rewrite Hx, Hl.
Qed.

Lemma wp_get_str (x s : string) (Q : string → State → Prop) (σ : State) :
  namespace σ !! x = Some (VStr s) → Q s σ → wp (get_str x) Q σ.
Proof.
  intros Hx HQ. unfold wp, get_str, mbind, Script_bind, lookup_name. by rewrite Hx.
Qed.

Lemma wp_get_metric (x : string) (m : Metric) (Q : Metric → State → Prop) (σ : State) :
  namespace σ !! x = Some (VMetric m) → Q m σ → wp (get_metric x) Q σ.
Proof.
  intros Hx HQ. unfold wp, get_metric, mbind, Script_bind, lookup_name. by rewrite Hx.
Qed.

Lemma wp_get_date (x : string) (d : Z) (Q : Z → State → Prop) (σ : State) :
  namespace σ !! x = Some (VDate d) → Q d σ → wp (get_date x) Q σ.
Proof.
  intros Hx HQ. unfold wp, get_date, mbind, Script_bind, lookup_name. by rewrite Hx.
Qed.

Lemma wp_get_figure (x : string) (f : Figure) (Q : Figure → State → Prop) (σ : State) :
  namespace σ !! x = Some (VFigure f) → Q f σ → wp (get_figure x) Q σ.
Proof.
  intros Hx HQ. unfold wp, get_figure, mbind, Script_bind, lookup_name. by rewrite Hx.
Qed.

Lemma wp_lift_result {A} (a : A) (Q : A → State → Prop) (σ : State) :
  Q a σ → wp (lift_result (Ok a)) Q σ.
Proof. done. Qed.

Lemma wp_st_call (v : Value) (Q : unit → State → Prop) (σ : State) :
  namespace σ !! "st" = Some v → Q () σ → wp st_call Q σ.
Proof.
  intros Hx HQ. unfold wp, st_call, mbind, Script_bind, lookup_name. by rewrite Hx.
Qed.

Lemma wp_st_sidebar_error (msg : string) (v : Value) (Q : unit → State → Prop)
    (σ : State) :
  namespace σ !! "st" = Some v →
  Q () (mkState (namespace σ) (heap σ) (environ σ)
                (sidebar_errors σ ++ [msg]) (rendered σ)) →
  wp (st_sidebar_error msg) Q σ.
Proof.
  intros Hx HQ. unfold wp, st_sidebar_error, mbind, Script_bind, lookup_name.
  by rewrite Hx.
Qed.

Lemma wp_px_figure (x kind frame : string) (v : Value) (l : loc) (o : Object)
    (Q : unit → State → Prop) (σ : State) :
  namespace σ !! "px" = Some v →
  namespace σ !! frame = Some (VRef l) → heap σ !! l = Some o →
  Q () (mkState (<[x := VFigure (mkFigure kind o)]> (namespace σ)) (heap σ)
                (environ σ) (sidebar_errors σ) (rendered σ)) →
  wp (px_figure x kind frame) Q σ.
Proof.
  intros Hpx Hx Hl HQ.
  unfold wp, px_figure, get_object, mbind, Script_bind, lookup_name, deref.
  by rewrite Hpx, Hx, Hl.
Qed.

Lemma wp_st_plotly_chart (fig : string) (v : Value) (f : Figure)
    (Q : unit → State → Prop) (σ : State) :
  namespace σ !! "st" = Some v → namespace σ !! fig = Some (VFigure f) →
  Q () (mkState (namespace σ) (heap σ) (environ σ)
                (sidebar_errors σ) (rendered σ ++ [f])) →
  wp (st_plotly_chart fig) Q σ.
Proof.
  intros Hst Hx HQ.
  unfold wp, st_plotly_chart, get_figure, mbind, Script_bind, lookup_name.
  by rewrite Hst, Hx.
Qed.

Lemma wp_get_ranking (x : string) (l : loc) (t : list (string * Z))
    (Q : list (string * Z) → State → Prop) (σ : State) :
  namespace σ !! x = Some (VRef l) → heap σ !! l = Some (ORanking t) →
  Q t σ → wp (get_ranking x) Q σ.
Proof.
  intros Hx Hl HQ. unfold wp, get_ranking, mbind, Script_bind, lookup_name, deref.
  by rewrite Hx, Hl.
Qed.

Lemma wp_get_strs (x : string) (l : list string) (Q : list string → State → Prop)
    (σ : State) :
  namespace σ !! x = Some (VStrs l) → Q l σ → wp (get_strs x) Q σ.
Proof.
  intros Hx HQ. unfold wp, get_strs, mbind, Script_bind, lookup_name. by rewrite Hx.
Qed.

Lemma wp_get_int (x : string) (n : nat) (Q : nat → State → Prop) (σ : State) :
  namespace σ !! x = Some (VInt n) → Q n σ → wp (get_int x) Q σ.
Proof.
  intros Hx HQ. unfold wp, get_int, mbind, Script_bind, lookup_name. by rewrite Hx.
Qed.

Lemma wp_get_timestamp (x : string) (t : option Z) (Q : option Z → State → Prop)
    (σ : State) :
  namespace σ !! x = Some (VTimestamp t) → Q t σ → wp (get_timestamp x) Q σ.
Proof.
  intros Hx HQ. unfold wp, get_timestamp, mbind, Script_bind, lookup_name.
  by rewrite Hx.
Qed.

(** What a fresh location tells: it differs from every location written
    before it. *)
Ltac split_fresh H :=
  repeat (apply lookup_insert_None in H;
          let Hne := fresh "Hne" in destruct H as [H Hne]).

(** Reading a name or a location in a state written out as inserts. *)
Ltac solve_lookup :=
  cbn [namespace heap environ sidebar_errors rendered];
  repeat first
    [ rewrite lookup_insert_eq
    | rewrite lookup_insert_ne by (first [done | congruence]) ];
  first [eassumption | reflexivity].

(** One statement of a script. *)
Ltac wp_step :=
  lazymatch goal with
  | |- wp (_ ≫= _) _ _ => apply wp_bind
  | |- wp (mret _) _ _ => apply wp_ret
  | |- wp st_call _ _ => eapply wp_st_call; [solve_lookup|]
  | |- wp (lookup_name _) _ _ => eapply wp_lookup_name; [solve_lookup|]
  | |- wp (bind_name _ _) _ _ => apply wp_bind_name
  | |- wp (get_frame _) _ _ => eapply wp_get_frame; [solve_lookup|solve_lookup|]
  | |- wp (get_slice _) _ _ => eapply wp_get_slice; [solve_lookup|solve_lookup|]
  | |- wp (get_str _) _ _ => eapply wp_get_str; [solve_lookup|]
  | |- wp (get_metric _) _ _ => eapply wp_get_metric; [solve_lookup|]
  | |- wp (get_date _) _ _ => eapply wp_get_date; [solve_lookup|]
  | |- wp (get_ranking _) _ _ => eapply wp_get_ranking; [solve_lookup|solve_lookup|]
  | |- wp (get_strs _) _ _ => eapply wp_get_strs; [solve_lookup|]
  | |- wp (get_int _) _ _ => eapply wp_get_int; [solve_lookup|]
  | |- wp (get_timestamp _) _ _ => eapply wp_get_timestamp; [solve_lookup|]
  | |- wp (px_figure _ _ _) _ _ =>
      eapply wp_px_figure; [solve_lookup|solve_lookup|solve_lookup|]
  | |- wp (st_plotly_chart _) _ _ =>
      eapply wp_st_plotly_chart; [solve_lookup|solve_lookup|]
  | |- wp (st_sidebar_error _) _ _ => eapply wp_st_sidebar_error; [solve_lookup|]
  | |- wp (store _ _) _ _ => apply wp_store
  | |- wp (lift_result (Ok _)) _ _ => apply wp_lift_result
  | |- wp (alloc _) _ _ =>
      let l := fresh "l" in
      let Hl := fresh "Hl" in
      apply wp_alloc; intros l Hl;
      cbn [namespace heap environ sidebar_errors rendered] in Hl;
      split_fresh Hl
  end;
  cbn [fst snd namespace heap environ sidebar_errors rendered].

(** The Series of line 234 has the slice's own index, so the assignment is
    positional and cannot fail. *)
Lemma setitem_new_series (name : string) (f : Frame (Z * Z)) :
  setitem name (new_series f) f
  = Ok (mkFrame (index f) (records f)
                (set_column name (fillna 0 (diff (map snd (records f)))) (derived f))).
Proof.
  unfold setitem, reindex_for_setitem, new_series; simpl.
  by rewrite decide_True.
Qed.

(** C10 - the country section works on objects of its own: the two-column
    slice, its sorted copy and the melted table are new objects, the column
    [new_<metric>] is written into the sorted copy, and the object behind
    [global_df] is the same frame before and after, with no column added and
    no row changed. *)
Theorem country_trends_frame `{Quicksort} (inp : Inputs) (σ : State)
    (g : loc) (df : DataFrame) (st px : Value) :
  namespace σ !! "st" = Some st →
  namespace σ !! "px" = Some px →
  namespace σ !! "global_df" = Some (VRef g) →
  heap σ !! g = Some (ODataFrame df) →
  ∃ σ' : State,
    country_trends inp σ = (Ok (), σ')
    ∧ namespace σ' !! "global_df" = Some (VRef g)
    ∧ heap σ' !! g = Some (ODataFrame df)
    ∧ ∃ (l : loc) (f : Frame (Z * Z)),
        l ≠ g
        ∧ namespace σ' !! "country_data" = Some (VRef l)
        ∧ heap σ' !! l = Some (OSlice (in_selected_metric inp) f)
        ∧ map fst (derived f) = ["new_" +:+ metric_name (in_selected_metric inp)].
Proof.
  intros Hst Hpx Hg Hdf.
  enough (wp (country_trends inp)
             (λ _ σ', namespace σ' !! "global_df" = Some (VRef g)
                      ∧ heap σ' !! g = Some (ODataFrame df)
                      ∧ ∃ (l : loc) (f : Frame (Z * Z)),
                          l ≠ g
                          ∧ namespace σ' !! "country_data" = Some (VRef l)
                          ∧ heap σ' !! l = Some (OSlice (in_selected_metric inp) f)
                          ∧ map fst (derived f)
                            = ["new_" +:+ metric_name (in_selected_metric inp)]) σ)
    as Hwp.
  { apply wp_elim in Hwp as ([] & σ' & Hrun & HQ). eauto. }
  unfold country_trends.
  repeat wp_step.
  rewrite decide_True by done.
  repeat wp_step.
  rewrite setitem_new_series.
  repeat wp_step.
  split; [solve_lookup|]. split; [solve_lookup|].
  exists l0. eexists. split; [congruence|]. split; [solve_lookup|].
  split; [solve_lookup|]. done.
Qed.

Lemma country_trends_frame_witness :
  namespace example_state !! "st" = Some (VModule "streamlit")
  ∧ namespace example_state !! "px" = Some (VModule "plotly.express")
  ∧ namespace example_state !! "global_df" = Some (VRef 1%nat)
  ∧ heap example_state !! 1%nat = Some (ODataFrame example_table)
  ∧ ∃ σ' : State,
      country_trends example_inputs example_state = (Ok (), σ')
      ∧ namespace σ' !! "global_df" = Some (VRef 1%nat)
      ∧ heap σ' !! 1%nat = Some (ODataFrame example_table)
      ∧ ∃ (l : loc) (f : Frame (Z * Z)),
          l ≠ 1%nat
          ∧ namespace σ' !! "country_data" = Some (VRef l)
          ∧ heap σ' !! l = Some (OSlice (in_selected_metric example_inputs) f)
          ∧ map fst (derived f)
            = ["new_" +:+ metric_name (in_selected_metric example_inputs)].
Proof.
  split; [by vm_compute|]. split; [by vm_compute|].
  split; [by vm_compute|]. split; [by vm_compute|].
  apply (country_trends_frame example_inputs example_state 1%nat example_table
           (VModule "streamlit") (VModule "plotly.express")); by vm_compute.
Defined.

(** The section on the example: the slice of country A, sorted by date, with
    its new column; [global_df] keeps its five rows and no column is added. *)
Example country_trends_example :
  let σ' := (country_trends example_inputs example_state).2 in
  heap σ' !! 1%nat = Some (ODataFrame example_table)
  ∧ namespace σ' !! "country_data" = Some (VRef 3%nat)
  ∧ heap σ' !! 3%nat
    = Some (OSlice cases
              (mkFrame [1; 4; 3]%nat [(1, 5); (2, 9); (3, 4)]
                       [("new_cases", [Some 0; Some 4; Some (-5)])])).
Proof. by vm_compute. Qed.


(** ** The sections after the load end normally *)

Ltac loaded_intro H :=
  let st := fresh "st" in
  let pd := fresh "pd" in
  let px := fresh "px" in
  let df := fresh "df" in
  let Hst := fresh "Hst" in
  let Hpd := fresh "Hpd" in
  let Hpx := fresh "Hpx" in
  let Hg := fresh "Hg" in
  let Hdf := fresh "Hdf" in
  let Hu := fresh "Hu" in
  destruct H as ((st & pd & px & Hst & Hpd & Hpx) & Hg & df & Hdf & Hu).

Ltac loaded_done :=
  split; [do 3 eexists; repeat split; solve_lookup|];
  split; [solve_lookup|];
  eexists; split; [solve_lookup|]; try done.

Lemma global_trend_loaded (inp : Inputs) (g : loc) (σ : State) :
  loaded g σ → wp (global_trend inp) (λ _ σ', loaded g σ') σ.
Proof.
  intros Hl. loaded_intro Hl. unfold global_trend.
  repeat wp_step.
  destruct (_ >? _); repeat wp_step; loaded_done.
Qed.

Lemma compare_countries_loaded (inp : Inputs) (g : loc) (σ : State) :
  loaded g σ → wp (compare_countries inp) (λ _ σ', loaded g σ') σ.
Proof.
  intros Hl. loaded_intro Hl. unfold compare_countries.
  repeat wp_step. loaded_done.
Qed.

Lemma top_countries_loaded `{Quicksort} (inp : Inputs) (g : loc) (σ : State) :
  loaded g σ → wp (top_countries inp) (λ _ σ', loaded g σ') σ.
Proof.
  intros Hl. loaded_intro Hl. unfold top_countries, bind_latest_date, bind_latest_df.
  repeat wp_step. loaded_done.
Qed.

Lemma setitem_daily_series (m : Metric) (df : DataFrame) :
  unique_index df →
  setitem ("daily_" +:+ metric_name m)
          (daily_series m (sort_values_country_date df)) df
  = Ok (mkFrame (index df) (records df)
          (set_column ("daily_" +:+ metric_name m)
             (reindex (daily_series m (sort_values_country_date df)) (index df))
             (derived df))).
Proof. intros Hu. by destruct (dailyDelta_unique_index m df Hu) as [Hd _]. Qed.

Lemma sumByDate_derived_set_column (name : string) (col : list (option Z))
    (idx : list nat) (rs : list Obs) (cols : list (string * list (option Z))) :
  sumByDate_derived name (mkFrame idx rs (set_column name col cols))
  = Ok (groupby_sum_float (zip (map date rs) col)).
Proof. unfold sumByDate_derived. by rewrite getitem_derived_set_column. Qed.

Lemma unique_index_derived {R} (df : Frame R) (cols : list (string * list (option Z))) :
  unique_index df → unique_index (mkFrame (index df) (records df) cols).
Proof. done. Qed.

Lemma daily_new_loaded (inp : Inputs) (g : loc) (σ : State) :
  loaded g σ → wp (daily_new inp) (λ _ σ', loaded g σ') σ.
Proof.
  intros Hl. loaded_intro Hl. unfold daily_new, write_daily_column.
  repeat wp_step.
  rewrite setitem_daily_series by done.
  repeat wp_step.
  rewrite sumByDate_derived_set_column.
  repeat wp_step. loaded_done.
Qed.

Lemma daily_top_n_loaded `{Quicksort} (inp : Inputs) (g : loc) (σ : State) :
  loaded g σ → wp (daily_top_n inp) (λ _ σ', loaded g σ') σ.
Proof.
  intros Hl. loaded_intro Hl.
  unfold daily_top_n, write_daily_column, bind_latest_date, bind_latest_df.
  repeat wp_step.
  rewrite setitem_daily_series by done.
  repeat wp_step. loaded_done.
Qed.

Lemma country_trends_loaded `{Quicksort} (inp : Inputs) (g : loc) (σ : State) :
  loaded g σ → wp (country_trends inp) (λ _ σ', loaded g σ') σ.
Proof.
  intros Hl. loaded_intro Hl. unfold country_trends.
  repeat wp_step.
  rewrite decide_True by done.
  repeat wp_step.
  rewrite setitem_new_series.
  repeat wp_step. loaded_done.
Qed.

Lemma world_map_loaded (g : loc) (σ : State) :
  loaded g σ → wp world_map (λ _ σ', loaded g σ') σ.
Proof.
  intros Hl. loaded_intro Hl. unfold world_map.
  repeat wp_step. loaded_done.
Qed.

Lemma load_data_loaded (inp : Inputs) (σ : State) (st cod pd px : Value) :
  namespace σ !! "st" = Some st → namespace σ !! "cod" = Some cod →
  namespace σ !! "pd" = Some pd → namespace σ !! "px" = Some px →
  unique_index (provider inp) →
  wp (load_data inp) (λ _ σ', ∃ g, loaded g σ') σ.
Proof.
  intros Hst Hcod Hpd Hpx Hu. unfold load_data.
  repeat wp_step. exists l0. loaded_done.
Qed.

(** With the four modules bound, and so with line 6 out of the way, the rest
    of the script ends normally on every provider table with unique labels
    and every value the widgets return. *)
Lemma after_line_6_ends_normally `{Quicksort} (inp : Inputs) (σ : State)
    (st cod pd px : Value) :
  namespace σ !! "st" = Some st → namespace σ !! "cod" = Some cod →
  namespace σ !! "pd" = Some pd → namespace σ !! "px" = Some px →
  unique_index (provider inp) →
  ∃ σ' : State, after_line_6 inp σ = (Ok (), σ').
Proof.
  intros Hst Hcod Hpd Hpx Hu.
  enough (wp (after_line_6 inp) (λ _ _, True) σ) as Hwp.
  { apply wp_elim in Hwp as ([] & σ' & Hrun & _). eauto. }
  unfold after_line_6.
  apply wp_bind. eapply wp_mono; [|by eapply load_data_loaded].
  intros [] σ1 [g H1]; cbn beta.
  apply wp_bind. eapply wp_mono; [|by apply global_trend_loaded].
  intros [] σ2 H2; cbn beta.
  apply wp_bind. eapply wp_mono; [|by apply compare_countries_loaded].
  intros [] σ3 H3; cbn beta.
  apply wp_bind. eapply wp_mono; [|by apply top_countries_loaded].
  intros [] σ4 H4; cbn beta.
  apply wp_bind. eapply wp_mono; [|by apply daily_new_loaded].
  intros [] σ5 H5; cbn beta.
  apply wp_bind. eapply wp_mono; [|by apply daily_top_n_loaded].
  intros [] σ6 H6; cbn beta.
  apply wp_bind. eapply wp_mono; [|by apply country_trends_loaded].
  intros [] σ7 H7; cbn beta.
  eapply wp_mono; [|by apply world_map_loaded]. done.
Qed.

Lemma app_unfold `{Quicksort} (inp : Inputs) :
  app inp = (imports;; set_cache_dir;; after_line_6 inp).
Proof. done. Qed.

(** ** The sections run the engine *)



(** On the example table, from the state the imports leave, the sections run
    to the end and show their nine charts. *)
Example after_line_6_example :
  let r := after_line_6 example_inputs (imports initial_state).2 in
  r.1 = Ok () ∧ map chart (rendered r.2)
                = ["line"; "pie"; "pie"; "pie"; "bar"; "line"; "line"; "line"; "choropleth"].
Proof. by vm_compute. Qed.


(** * Further properties of the pipeline *)

(** ** First differences, read back *)











(** ** Grouping loses nothing *)



Lemma Zsum_nonneg (l : list Z) : Forall (λ v, 0 ≤ v) l → 0 ≤ foldr Z.add 0 l.
Proof. induction 1; simpl; lia. Qed.







(** ** The ranking keeps the largest totals *)

#[local] Instance flip_Zle_trans : Transitive (flip Z.le).
Proof. intros x y z. unfold flip. lia. Qed.



(** ** Columns written and read *)






(** ** Frames stay well formed *)



Lemma take_rows_unique_index {R} (ix : list nat) (df : Frame R) :
  ix ≡ₚ seq 0 (length (records df)) → unique_index df → unique_index (take_rows ix df).
Proof.
  intros Hix [Hnd Hlen]. split; cbn [take_rows index records].
  - rewrite take_pos_perm; [done|]. by rewrite Hlen.
  - rewrite !take_pos_length; [done|by apply perm_seq_in_range|].
    rewrite Hlen. by apply perm_seq_in_range.
Qed.



(** ** The daily column holds numbers *)



(** ** The comparison of two countries *)




Lemma int64_of_exact (s t : Z) : int64_of s t → - 2 ^ 63 ≤ s < 2 ^ 63 → t = s.
Proof.
  intros [Hr Hmod] Hs. rewrite <-(wrap64_id s Hs). by apply int64_unique.
Qed.


(** ** The latest date *)



(** ** The source table across a run *)














(** ** The sections on the example table *)




(** ** The daily totals *)




(** On the example table: the deltas 30, 0, 0, -5, 4 of the five rows, per
    date. *)
Example daily_totals_example :
  match dailyDelta cases example_table with
  | Ok df' => sumByDate_derived "daily_cases" df'
  | Raise e => Raise e
  end = Ok [(1, 0); (2, 34); (3, -5)].
Proof. vm_compute. reflexivity. Qed.

(** ** Counters that only grow *)




(** ** The trend of one country *)

Section country_slice.
Context `{QuicksortSpec}.




End country_slice.



(** On the example table, country A: the rows in date order, the deltas, and
    the melted table the line chart is drawn from. *)
Example country_data_melted_example :
  melt cases (mkFrame [1; 4; 3]%nat [(1, 5); (2, 9); (3, 4)]
                      [("new_cases", [Some 0; Some 4; Some (-5)])])
  = [(1, "cases", Some 5); (2, "cases", Some 9); (3, "cases", Some 4);
     (1, "new_cases", Some 0); (2, "new_cases", Some 4); (3, "new_cases", Some (-5))].
Proof. by vm_compute. Qed.

(** ** The daily increase in the top countries *)



